(** * check_model_performance: a shallow embedding and its properties

    The repository is one Python function, [check_model_performance]
    (frontend/check_model_performance.py).  It walks three model
    directories, loads a results artifact from each, picks the sub-model
    with the best F1 score, prints a report, and dumps a summary as JSON.

    The embedding keeps the shape of the Python code:
    - Python objects are a small universe [value]; dictionaries are
      association lists in insertion order (the order Python iterates in);
    - an int is an integer of any size; a float is the rational it equals,
      or NaN (infinities are left out); [bool] counts as a number, as in
      Python;
    - console output and the final [json.dump] are a trace of [event]s;
    - exceptions are explicit: a computation returns its trace together
      with [Ok a] or [Raise e];
    - the host ([os.path.exists], [os.listdir], [joblib.load]) is a record
      of functions, [filesystem]. *)

From Stdlib Require Import List String Ascii Bool Arith NArith ZArith Lia.
From Stdlib Require Import QArith.
From Stdlib Require Import Permutation Sorting.Sorted.
Import ListNotations.

Local Open Scope string_scope.
Local Open Scope list_scope.

(** ** Python values *)

#[local] Set Warnings "-register-all".

(** A number as the comparison of line 37 and the formats of lines 52-57
    see it: a finite value, or the float NaN. *)
Inductive num : Type :=
| Fin (q : Q)
| NaN.

Inductive value : Type :=
| VNone
| VBool (b : bool)
| VInt (z : Z)
| VFloat (x : num)
| VStr (s : string)
| VList (l : list value)
| VDict (d : list (string * value)).

(** A dictionary with string keys, in insertion order. *)
Definition assoc (V : Type) : Type := list (string * V).
Definition dict : Type := assoc value.

Section Assoc.
Context {V : Type}.

(** [d.get(k)] *)
Fixpoint dict_get (k : string) (d : assoc V) : option V :=
  match d with
  | [] => None
  | (k', v) :: rest => if String.eqb k k' then Some v else dict_get k rest
  end.

(** [k in d] *)
Definition dict_has (k : string) (d : assoc V) : bool :=
  match dict_get k d with Some _ => true | None => false end.

(** [d.get(k, default)] *)
Definition dict_get_default (k : string) (default : V) (d : assoc V) : V :=
  match dict_get k d with Some v => v | None => default end.

(** [d[k] = v]: an existing key keeps its position, a new one goes last. *)
Fixpoint dict_set (k : string) (v : V) (d : assoc V) : assoc V :=
  match d with
  | [] => [(k, v)]
  | (k', v') :: rest =>
      if String.eqb k k' then (k', v) :: rest
      else (k', v') :: dict_set k v rest
  end.

Definition keys (d : assoc V) : list string := map fst d.
End Assoc.

(** The number a value stands for, when it is one ([True] is 1). *)
Definition as_num (v : value) : option num :=
  match v with
  | VInt z => Some (Fin (inject_Z z))
  | VFloat x => Some x
  | VBool true => Some (Fin 1)
  | VBool false => Some (Fin 0)
  | _ => None
  end.

(** Whether an int converts to a float: conversion rounds to nearest, so
    it overflows from [2^1024 - 2^970] on, halfway between the largest
    double and [2^1024]. *)
Definition fits_double (z : Z) : bool :=
  (Z.abs z <? 2 ^ 1024 - 2 ^ 970)%Z.

(** ** Exceptions, events and the report monad *)

Inductive exn : Type :=
| LoadError (msg : string)   (* whatever joblib.load raised *)
| KeyError (key : string)    (* d[key] on a dict without key *)
| TypeError (v : value)      (* v > number, or format(v, '.4f'), v of no numeric type *)
| ValueError (v : value)     (* format(v, '.4f') on a str *)
| OverflowError (v : value)  (* format(v, '.4f') on an int too large for a float *)
| OSError (path : string).   (* os.listdir failed *)

Inductive result (A : Type) : Type :=
| Ok (a : A)
| Raise (e : exn).
Arguments Ok {A} a.
Arguments Raise {A} e.

(** One printed line, by the f-string that produces it. *)
Inductive line : Type :=
| Header (name : string)             (* "\n=== {name} Model Performance ===" *)
| BestModel (name : option string)   (* "Best Model: {best_model}" *)
| Metric (label : string) (x : num)  (* "{label}: {x:.4f} ({x*100:.2f}%)" *)
| CvMean (mean std : num)            (* "CV Mean: {mean:.4f} +- {std:.4f}", with the plus-minus sign *)
| ErrorLoading (path : string) (e : exn)  (* "Error loading {path}: {e}" *)
| FilesIn (dir : string)             (* "\nFiles in {dir}:" *)
| FileItem (file : string)           (* "  - {file}" *)
| SummarySaved.                      (* "\n=== Summary saved to ... ===" *)

Inductive event : Type :=
| Print (l : line)
| Dump (path : string) (obj : assoc dict).
  (* json.dump(obj, f, indent=2) with f = open(path, 'w'); the open is taken
     to succeed; the document written is json_of (summary_value obj), below *)

Definition M (A : Type) : Type := (list event * result A)%type.

Definition ret {A} (a : A) : M A := ([], Ok a).

Definition bind {A B} (m : M A) (f : A -> M B) : M B :=
  match m with
  | (out, Ok a) => let (out', r) := f a in (out ++ out', r)
  | (out, Raise e) => (out, Raise e)
  end.

Definition raise {A} (e : exn) : M A := ([], Raise e).
Definition lift {A} (r : result A) : M A := ([], r).
Definition print (l : line) : M unit := ([Print l], Ok tt).
Definition emit (e : event) : M unit := ([e], Ok tt).

(** [try: m  except Exception as e: handler e] *)
Definition try_except {A} (m : M A) (handler : exn -> M A) : M A :=
  match m with
  | (out, Raise e) => let (out', r) := handler e in (out ++ out', r)
  | done => done
  end.

Declare Scope report_scope.
Delimit Scope report_scope with report.
Notation "x <- m ;; k" := (bind m (fun x => k))
  (at level 100, m at next level, right associativity) : report_scope.
Notation "m ;; k" := (bind m (fun _ => k))
  (at level 100, right associativity) : report_scope.
Local Open Scope report_scope.

(** ** String and path helpers *)

(** [sub in s] *)
Fixpoint contains (sub s : string) : bool :=
  String.prefix sub s ||
  match s with
  | EmptyString => false
  | String _ s' => contains sub s'
  end.

(** [s.endswith(suffix)] *)
Definition endswith (s suffix : string) : bool :=
  let n := String.length s in
  let m := String.length suffix in
  (m <=? n)%nat && String.eqb (String.substring (n - m) m s) suffix.

(** [s.split(sep)] for a one-character separator. *)
Fixpoint str_split (sep : ascii) (s : string) : list string :=
  match s with
  | EmptyString => [EmptyString]
  | String c s' =>
      if Ascii.eqb c sep then EmptyString :: str_split sep s'
      else match str_split sep s' with
           | hd :: tl => String c hd :: tl
           | [] => [String c EmptyString]
           end
  end.

(** [s.upper()] on ASCII letters. *)
Definition upper_ascii (c : ascii) : ascii :=
  let n := nat_of_ascii c in
  if (97 <=? n)%nat && (n <=? 122)%nat then ascii_of_nat (n - 32) else c.

Fixpoint upper (s : string) : string :=
  match s with
  | EmptyString => EmptyString
  | String c s' => String (upper_ascii c) (upper s')
  end.

(** [os.path.join(a, b)] (posixpath). *)
Definition path_join (a b : string) : string :=
  if String.prefix "/" b then b
  else if String.eqb a "" || endswith a "/" then (a ++ b)%string
  else (a ++ "/" ++ b)%string.

(** [sorted(files)]: strings compare by code point. *)
Fixpoint insert_sorted (x : string) (l : list string) : list string :=
  match l with
  | [] => [x]
  | y :: rest => if String.leb x y then x :: l else y :: insert_sorted x rest
  end.

Fixpoint sorted (l : list string) : list string :=
  match l with
  | [] => []
  | x :: rest => insert_sorted x (sorted rest)
  end.

(** ** The host *)

Record filesystem : Type := {
  path_exists : string -> bool;               (* os.path.exists *)
  listdir : string -> result (list string);   (* os.listdir, in the order the OS gives *)
  joblib_load : string -> result value        (* joblib.load *)
}.

(** ** The program *)

Definition model_dirs : list string := ["models/k2"; "models/kepler"; "models/tess"].

Definition summary_file : string := "model_performance_summary.json".

(** [model_dir.split('/')[-1]] *)
Definition display_name (model_dir : string) : string :=
  last (str_split "/"%char model_dir) EmptyString.

(** Lines 19-23: the first listed file whose name contains "model_results"
    and ends with ".joblib". *)
Fixpoint find_results_file (model_dir : string) (files : list string) : option string :=
  match files with
  | [] => None
  | file :: rest =>
      if contains "model_results" file && endswith file ".joblib"
      then Some (path_join model_dir file)
      else find_results_file model_dir rest
  end.

(** Lines 40-49: the summary entry built from a sub-model's metrics. *)
Definition make_info (name : string) (metrics : dict) : dict :=
  [ ("model_name", VStr name);
    ("accuracy", dict_get_default "accuracy" (VInt 0) metrics);
    ("precision", dict_get_default "precision" (VInt 0) metrics);
    ("recall", dict_get_default "recall" (VInt 0) metrics);
    ("f1_score", dict_get_default "f1_score" (VInt 0) metrics);
    ("roc_auc", dict_get_default "roc_auc" (VInt 0) metrics);
    ("cv_mean", dict_get_default "cv_mean" (VInt 0) metrics);
    ("cv_std", dict_get_default "cv_std" (VInt 0) metrics) ].

(** [v > best_f1], with [best_f1] a finite number: ints and floats compare
    by value, NaN is greater than nothing. *)
Definition gt_num (v : value) (best_f1 : Q) : result bool :=
  match as_num v with
  | Some (Fin x) => Ok (negb (Qle_bool x best_f1))
  | Some NaN => Ok false
  | None => Raise (TypeError v)
  end.

(** The state of the scan: [best_model], [best_f1], [model_info].
    [best_f1] is 0 or a value that compared greater than a number, so it is
    kept as the number it stands for. *)
Record scan_state : Type := {
  best_model : option string;
  best_f1 : Q;
  model_info : dict
}.

Definition scan_init : scan_state :=
  {| best_model := None; best_f1 := 0%Q; model_info := [] |}.

(** Lines 35-49: the loop over [results_data.items()]. *)
Fixpoint scan (items : dict) (st : scan_state) : result scan_state :=
  match items with
  | [] => Ok st
  | (name, VDict metrics) :: rest =>
      match dict_get "f1_score" metrics with
      | Some f1 =>
          match gt_num f1 (best_f1 st) with
          | Raise e => Raise e
          | Ok true =>
              scan rest {| best_model := Some name;
                           best_f1 := match as_num f1 with
                                      | Some (Fin x) => x
                                      | _ => 0%Q
                                      end;
                           model_info := make_info name metrics |}
          | Ok false => scan rest st
          end
      | None => scan rest st
      end
  | (_, _) :: rest => scan rest st
  end.

(** [d[key]] *)
Definition getitem (d : dict) (key : string) : M value :=
  match dict_get key d with
  | Some v => ret v
  | None => raise (KeyError key)
  end.

(** [format(v, '.4f')]: the number to be rendered, or the error Python
    raises.  An int is converted to a float first. *)
Definition format_f (v : value) : M num :=
  match v with
  | VInt z =>
      if fits_double z then ret (Fin (inject_Z z)) else raise (OverflowError v)
  | VBool true => ret (Fin 1)
  | VBool false => ret (Fin 0)
  | VFloat x => ret x
  | VStr _ => raise (ValueError v)
  | _ => raise (TypeError v)
  end.

(** [format(v*100, '.2f')], for a number [v] that [format(v, '.4f')]
    accepted: an int times 100 is an int and is converted in turn; a float
    times 100 is a float and always formats; [True*100] is 100. *)
Definition format_pct (v : value) : M unit :=
  match v with
  | VInt z =>
      if fits_double (z * 100) then ret tt
      else raise (OverflowError (VInt (z * 100)))
  | _ => ret tt
  end.

(** Lines 52-56: one "{label}: {x:.4f} ({x*100:.2f}%)" line. *)
Definition print_metric (label key : string) (info : dict) : M unit :=
  v <- getitem info key ;;
  x <- format_f v ;;
  format_pct v ;;
  print (Metric label x).

(** Lines 51-57. *)
Definition print_metrics (best : option string) (info : dict) : M unit :=
  print (BestModel best) ;;
  print_metric "Accuracy" "accuracy" info ;;
  print_metric "Precision" "precision" info ;;
  print_metric "Recall" "recall" info ;;
  print_metric "F1-Score" "f1_score" info ;;
  print_metric "ROC AUC" "roc_auc" info ;;
  mean <- (v <- getitem info "cv_mean" ;; format_f v) ;;
  std <- (v <- getitem info "cv_std" ;; format_f v) ;;
  print (CvMean mean std).

(** Lines 27-59: the body of the [try]. *)
Definition load_and_report (fs : filesystem) (model_name results_file : string)
    (results : assoc dict) : M (assoc dict) :=
  results_data <- lift (joblib_load fs results_file) ;;
  print (Header (upper model_name)) ;;
  match results_data with
  | VDict items =>
      st <- lift (scan items scan_init) ;;
      print_metrics (best_model st) (model_info st) ;;
      ret (dict_set model_name (model_info st) results)
  | _ => ret results
  end.

(** Lines 65-68. *)
Definition list_files (fs : filesystem) (model_dir : string) : M unit :=
  files_in_dir <- lift (listdir fs model_dir) ;;
  print (FilesIn model_dir) ;;
  fold_right (fun file rest => print (FileItem file) ;; rest) (ret tt)
             (sorted files_in_dir).

(** Lines 12-68: one iteration of the loop over [model_dirs]. *)
Definition process_dir (fs : filesystem) (model_dir : string)
    (results : assoc dict) : M (assoc dict) :=
  if negb (path_exists fs model_dir) then ret results
  else
    let model_name := display_name model_dir in
    files <- lift (listdir fs model_dir) ;;
    let results_file := find_results_file model_dir files in
    results' <-
      match results_file with
      | Some p =>
          if negb (String.eqb p "") && path_exists fs p
          then try_except (load_and_report fs model_name p results)
                          (fun e => print (ErrorLoading p e) ;; ret results)
          else ret results
      | None => ret results
      end ;;
    list_files fs model_dir ;;
    ret results'.

(** Lines 11-68. *)
Fixpoint process_dirs (fs : filesystem) (dirs : list string)
    (results : assoc dict) : M (assoc dict) :=
  match dirs with
  | [] => ret results
  | model_dir :: rest =>
      results' <- process_dir fs model_dir results ;;
      process_dirs fs rest results'
  end.

(** Lines 5-75. *)
Definition check_model_performance (fs : filesystem) : M (assoc dict) :=
  results <- process_dirs fs model_dirs [] ;;
  emit (Dump summary_file results) ;;
  print SummarySaved ;;
  ret results.

(** ** The summary file (line 72) *)

(** Modelled from the spec: the JSON writer and reader are Python's [json]
    module, which is not part of the source.  A JSON document, with numbers
    told apart as the reader tells them: an integer literal, or a real
    literal, given by the float it denotes ([repr] of a float reads back as
    the same float); [JReal NaN] is the literal [NaN] that [json.dump]
    writes for a NaN. *)
Inductive json : Type :=
| JNull
| JBool (b : bool)
| JInt (z : Z)
| JReal (x : num)
| JString (s : string)
| JArray (elements : list json)
| JObject (members : list (string * json)).

(** Modelled from the spec: the document [json.dump(obj, f, indent=2)]
    writes, by the conversion table of the [json] documentation: dict to
    object (members in insertion order), list to array, str to string, int
    and float to number, True and False to true and false, None to null.
    Indentation does not change the document. *)
Fixpoint json_of (v : value) : json :=
  match v with
  | VNone => JNull
  | VBool b => JBool b
  | VInt z => JInt z
  | VFloat x => JReal x
  | VStr s => JString s
  | VList l => JArray (map json_of l)
  | VDict d => JObject (map (fun kv => (fst kv, json_of (snd kv))) d)
  end.

(** Modelled from the spec: the value [json.load] reads back: object to
    dict (a repeated name keeps its first position and its last value),
    array to list, string to str, integer literal to int, real literal to
    float, true and false to True and False, null to None. *)
Fixpoint value_of (j : json) : value :=
  match j with
  | JNull => VNone
  | JBool b => VBool b
  | JInt z => VInt z
  | JReal x => VFloat x
  | JString s => VStr s
  | JArray l => VList (map value_of l)
  | JObject ms =>
      VDict (fold_left (fun d kv => dict_set (fst kv) (value_of (snd kv)) d) ms [])
  end.

(** The summary as the value handed to [json.dump]: a dict of dicts. *)
Definition summary_value (results : assoc dict) : value :=
  VDict (map (fun entry => (fst entry, VDict (snd entry))) results).

(** Python's [a == b] for two values that share no object: numbers compare
    by value across int, float and bool, and NaN equals nothing; strings,
    [None] and lists compare structurally; dicts compare key by key,
    whatever the order of the keys. *)
Fixpoint py_eq (a b : value) {struct a} : bool :=
  match a, b with
  | VNone, VNone => true
  | VStr s, VStr t => String.eqb s t
  | VList l, VList l' =>
      (fix all2 (l : list value) (l' : list value) : bool :=
         match l, l' with
         | [], [] => true
         | x :: r, y :: r' => py_eq x y && all2 r r'
         | _, _ => false
         end) l l'
  | VDict d, VDict d' =>
      Nat.eqb (List.length d) (List.length d') &&
      forallb (fun kv => match dict_get (fst kv) d' with
                         | Some y => py_eq (snd kv) y
                         | None => false
                         end) d
  | _, _ =>
      match as_num a, as_num b with
      | Some (Fin x), Some (Fin y) => Qeq_bool x y
      | _, _ => false
      end
  end.

(** A host given by tables: the listing of each directory, and what loading
    each artifact yields. *)
Definition table_fs (dirs : assoc (list string)) (artifacts : assoc (result value))
    : filesystem :=
  {| path_exists := fun p => dict_has p dirs || dict_has p artifacts;
     listdir := fun p =>
       match dict_get p dirs with
       | Some files => Ok files
       | None => Raise (OSError p)
       end;
     joblib_load := fun p =>
       match dict_get p artifacts with
       | Some r => r
       | None => Raise (LoadError "No such file")
       end |}.

(** * The vocabulary of the properties *)


Definition file_items (files : list string) : list event :=
  map (fun file => Print (FileItem file)) files.

(** What [list_files] prints for a directory whose listing call gave [files]. *)
Definition listing (model_dir : string) (files : list string) : list event :=
  Print (FilesIn model_dir) :: file_items (sorted files).

Definition metric_keys : list string :=
  ["accuracy"; "precision"; "recall"; "f1_score"; "roc_auc"; "cv_mean"; "cv_std"].

Definition info_keys : list string := "model_name" :: metric_keys.

(** The metric keys printed with a percentage (lines 52-56), and the two
    of line 57. *)
Definition pct_keys : list string :=
  ["accuracy"; "precision"; "recall"; "f1_score"; "roc_auc"].

Definition cv_keys : list string := ["cv_mean"; "cv_std"].

(** The data model's metrics record: every metric field that is present
    holds a number. *)
Definition numeric_fields (m : dict) : Prop :=
  forall k v, In k metric_keys -> dict_get k m = Some v -> as_num v <> None.

(** The number printed for field [k] of metrics [m]. *)
Definition metric_value (k : string) (m : dict) : num :=
  match as_num (dict_get_default k (VInt 0) m) with
  | Some x => x
  | None => Fin 0
  end.

Definition metric_lines (name : string) (m : dict) : list event :=
  [ Print (BestModel (Some name));
    Print (Metric "Accuracy" (metric_value "accuracy" m));
    Print (Metric "Precision" (metric_value "precision" m));
    Print (Metric "Recall" (metric_value "recall" m));
    Print (Metric "F1-Score" (metric_value "f1_score" m));
    Print (Metric "ROC AUC" (metric_value "roc_auc" m));
    Print (CvMean (metric_value "cv_mean" m) (metric_value "cv_std" m)) ].

(** The [f1_score] of an entry the scan considers: the entry's value is a
    dict and has the field. *)
Definition f1_field (entry : string * value) : option value :=
  match snd entry with
  | VDict metrics => dict_get "f1_score" metrics
  | _ => None
  end.

(** A number that is below [q], or not above it; NaN, which is greater
    than nothing, is both. *)
Definition below (x : num) (q : Q) : Prop :=
  match x with Fin a => (a < q)%Q | NaN => True end.

Definition not_above (x : num) (q : Q) : Prop :=
  match x with Fin a => (a <= q)%Q | NaN => True end.

(** The entry's [f1_score], if it has one, is a number below [q]
    (strictly, or not). *)
Definition f1_lt (q : Q) (entry : string * value) : Prop :=
  match f1_field entry with
  | Some v => exists x, as_num v = Some x /\ below x q
  | None => True
  end.

Definition f1_le (q : Q) (entry : string * value) : Prop :=
  match f1_field entry with
  | Some v => exists x, as_num v = Some x /\ not_above x q
  | None => True
  end.

(** Every [f1_score] in the mapping is a number. *)
Definition numeric_f1 (items : dict) : Prop :=
  Forall (fun entry => match f1_field entry with
                       | Some v => as_num v <> None
                       | None => True
                       end) items.

(** Entry [name : m] carries the maximum [f1_score] [q] of the mapping and
    is the first entry, in iteration order, to do so. *)
Definition first_maximum (items : dict) (name : string) (m : dict) (q : Q) : Prop :=
  exists pre post v,
    items = pre ++ (name, VDict m) :: post /\
    dict_get "f1_score" m = Some v /\ as_num v = Some (Fin q) /\
    Forall (f1_lt q) pre /\ Forall (f1_le q) post.

(** What the scan state can be: nothing selected and [model_info] empty, or
    a selected entry whose [f1_score] is the running best and is positive. *)
Definition state_ok (st : scan_state) : Prop :=
  (0 <= best_f1 st)%Q /\
  ((best_model st = None /\ model_info st = []) \/
   exists name m v,
     best_model st = Some name /\ model_info st = make_info name m /\
     dict_get "f1_score" m = Some v /\ as_num v = Some (Fin (best_f1 st)) /\
     (0 < best_f1 st)%Q).

(** A summary entry is only ever written from a selected sub-model whose
    [f1_score] is a positive number. *)
Definition from_positive_f1 (info : dict) : Prop :=
  exists name m v q,
    info = make_info name m /\
    dict_get "f1_score" m = Some v /\ as_num v = Some (Fin q) /\ (0 < q)%Q.

(** The lines of a directory's report section: its header, the metric
    lines, an error line for one of its files. *)
Definition report_event (model_dir : string) (ev : event) : Prop :=
  match ev with
  | Print (Header name) => name = upper (display_name model_dir)
  | Print (BestModel _) | Print (Metric _ _) | Print (CvMean _ _) => True
  | Print (ErrorLoading _ _) => True
  | _ => False
  end.

(** The lines of a directory's listing section. *)
Definition listing_event (model_dir : string) (ev : event) : Prop :=
  match ev with
  | Print (FilesIn dir) => dir = model_dir
  | Print (FileItem _) => True
  | _ => False
  end.

(** Every event of a directory's iteration belongs to that directory. *)
Definition dir_event (model_dir : string) (ev : event) : Prop :=
  report_event model_dir ev \/ listing_event model_dir ev.

(** [reaches fs dirs results]: the loop of line 11 stands before the
    directories [dirs] with summary [results]. *)
Inductive reaches (fs : filesystem) : list string -> assoc dict -> Prop :=
| reaches_start : reaches fs model_dirs []
| reaches_next model_dir rest results out results' :
    reaches fs (model_dir :: rest) results ->
    process_dir fs model_dir results = (out, Ok results') ->
    reaches fs rest results'.

Definition is_num (v : value) : bool :=
  match as_num v with Some _ => true | None => false end.

(** Every metric field of [m] that is present holds a number. *)
Definition numeric_fieldsb (m : dict) : bool :=
  forallb (fun k => match dict_get k m with Some v => is_num v | None => true end)
          metric_keys.

(** The exception [format(v, '.4f')] raises, if it raises. *)
Definition format_error (v : value) : option exn :=
  match v with
  | VInt z => if fits_double z then None else Some (OverflowError v)
  | VBool _ | VFloat _ => None
  | VStr _ => Some (ValueError v)
  | _ => Some (TypeError v)
  end.

(** The exception a metric line raises on [v]: that of [format(v, '.4f')],
    else that of [format(v*100, '.2f')]. *)
Definition pct_error (v : value) : option exn :=
  match format_error v with
  | Some e => Some e
  | None =>
      match v with
      | VInt z =>
          if fits_double (z * 100) then None
          else Some (OverflowError (VInt (z * 100)))
      | _ => None
      end
  end.

(** The exception lines 52-57 raise on field [k] of the entry built from
    [m]: [cv_mean] and [cv_std] are formatted once, the other five twice. *)
Definition field_error (k : string) (m : dict) : option exn :=
  let v := dict_get_default k (VInt 0) m in
  if String.eqb k "cv_mean" || String.eqb k "cv_std"
  then format_error v else pct_error v.

(** Lines 52-57 go through for the entry built from [m]: every metric
    field is absent or a number, an int small enough for its formats. *)
Definition printable_fields (m : dict) : bool :=
  forallb (fun k => match field_error k m with None => true | Some _ => false end)
          metric_keys.

(** Every entry the scan considers has printable metric fields. *)
Definition printable_metrics (items : dict) : bool :=
  forallb (fun entry => match snd entry with
                        | VDict m => if dict_has "f1_score" m then printable_fields m else true
                        | _ => true
                        end) items.

(** The label lines 52-56 print for a metric key. *)
Definition metric_label (k : string) : string :=
  if String.eqb k "accuracy" then "Accuracy"
  else if String.eqb k "precision" then "Precision"
  else if String.eqb k "recall" then "Recall"
  else if String.eqb k "f1_score" then "F1-Score"
  else "ROC AUC".

(** The metric lines printed for the keys [ks], a prefix of [metric_keys]:
    one per key other than [cv_mean] and [cv_std]. *)
Definition metric_lines_for (m : dict) (ks : list string) : list event :=
  map (fun k => Print (Metric (metric_label k) (metric_value k m)))
      (filter (fun k => negb (String.eqb k "cv_mean" || String.eqb k "cv_std")) ks).

(** Sample hosts: only [models/k2] exists; it holds three files, one of them
    the results artifact, and loading that yields [artifact]. *)
Definition k2_files : list string :=
  ["scaler.joblib"; "k2_model_results.joblib"; "best_model.joblib"].

Definition k2_artifact : string := "models/k2/k2_model_results.joblib".

Definition k2_host (artifact : result value) : filesystem :=
  table_fs [("models/k2", k2_files)] [(k2_artifact, artifact)].

(** The mapping of the specification's example. *)
Definition two_models : dict :=
  [ ("A", VDict [("f1_score", VFloat (Fin (8 # 10))); ("accuracy", VFloat (Fin (9 # 10)))]);
    ("B", VDict [("f1_score", VFloat (Fin (95 # 100))); ("accuracy", VFloat (Fin (85 # 100)))]) ].

(** Two sub-models that share the best score. *)
Definition tied_models : dict :=
  [ ("Z", VDict [("f1_score", VFloat (Fin (9 # 10)))]);
    ("A", VDict [("f1_score", VFloat (Fin (9 # 10))); ("recall", VInt 1)]) ].

(** The metric fields other than [f1_score]. *)
Definition optional_fields : list string :=
  ["accuracy"; "precision"; "recall"; "roc_auc"; "cv_mean"; "cv_std"].

(** The entry's [f1_score] is a number above 0. *)
Definition positive_f1 (info : dict) : Prop :=
  exists v q,
    dict_get "f1_score" info = Some v /\ as_num v = Some (Fin q) /\ (0 < q)%Q.

(** Keys among the three display names, values with the eight keys of
    lines 41-48. *)
Definition summary_ok (summary : assoc dict) : Prop :=
  Forall (fun entry =>
            In (fst entry) ["k2"; "kepler"; "tess"] /\
            keys (snd entry) = info_keys) summary.

(** The test of line 21 on a listed file name. *)
Definition is_results_file (file : string) : bool :=
  contains "model_results" file && endswith file ".joblib".

(** Whether the scan considers an entry: its value is a dict with an
    [f1_score] field. *)
Definition is_candidate (entry : string * value) : bool :=
  match f1_field entry with Some _ => true | None => false end.

(** The float NaN. *)
Definition is_nan (v : value) : bool :=
  match v with VFloat NaN => true | _ => false end.

(** No value recorded in the summary is NaN. *)
Definition nan_free (summary : assoc dict) : bool :=
  forallb (fun entry => forallb (fun kv => negb (is_nan (snd kv))) (snd entry))
          summary.

(** A value that is neither a list nor a dict. *)
Definition is_scalar (v : value) : bool :=
  match v with VList _ | VDict _ => false | _ => true end.

(** A summary entry as line 59 can write it: built by lines 40-49 from
    metrics that lines 52-57 could format. *)
Definition written_entry (info : dict) : Prop :=
  exists name m, info = make_info name m /\ printable_fields m = true.

(** The events that write the summary file. *)
Definition is_dump (ev : event) : bool :=
  match ev with Dump _ _ => true | Print _ => false end.

(** The display names of the configured directories, in order. *)
Definition display_names : list string := map display_name model_dirs.

(** * Properties *)

(** ** The report monad *)

Lemma bind_ok_inv {A B} (m : M A) (f : A -> M B) out b :
  bind m f = (out, Ok b) ->
  exists o1 a o2, m = (o1, Ok a) /\ f a = (o2, Ok b) /\ out = o1 ++ o2.
Proof.
  unfold bind. destruct m as [o1 [a | e]]; [| discriminate].
  destruct (f a) as [o2 r] eqn:Hf. intros H. inversion H; subst.
  exists o1, a, o2. auto.
Qed.

Lemma bind_ok {A B} (m : M A) (f : A -> M B) o1 a :
  m = (o1, Ok a) -> bind m f = (o1 ++ fst (f a), snd (f a)).
Proof. intros ->. unfold bind. destruct (f a); reflexivity. Qed.

Lemma bind_ret {A B} (a : A) (f : A -> M B) : bind (ret a) f = f a.
Proof. unfold bind, ret. destruct (f a). reflexivity. Qed.

Lemma bind_lift_ok {A B} (a : A) (f : A -> M B) : bind (lift (Ok a)) f = f a.
Proof. apply bind_ret. Qed.

Lemma bind_print {B} l (f : unit -> M B) :
  bind (print l) f = (Print l :: fst (f tt), snd (f tt)).
Proof. unfold bind, print. destruct (f tt). reflexivity. Qed.

(** ** Dictionaries *)

Section AssocFacts.
Context {V : Type}.
Implicit Types (d : assoc V) (k : string) (v : V).

Lemma dict_get_set_same k v d : dict_get k (dict_set k v d) = Some v.
Proof.
  induction d as [| [k' v'] rest IH]; simpl.
  - now rewrite String.eqb_refl.
  - destruct (String.eqb k k') eqn:E; simpl; rewrite E; auto.
Qed.

Lemma dict_get_set_other k k' v d :
  k <> k' -> dict_get k (dict_set k' v d) = dict_get k d.
Proof.
  intros Hne. induction d as [| [k0 v0] rest IH]; simpl.
  - apply String.eqb_neq in Hne. now rewrite Hne.
  - destruct (String.eqb k' k0) eqn:E; simpl.
    + apply String.eqb_eq in E; subst k0.
      apply String.eqb_neq in Hne. now rewrite Hne.
    + now rewrite IH.
Qed.

Lemma dict_get_In k v d : dict_get k d = Some v -> In (k, v) d.
Proof.
  induction d as [| [k' v'] rest IH]; simpl; [discriminate |].
  destruct (String.eqb k k') eqn:E.
  - apply String.eqb_eq in E; subst. intros [= ->]. now left.
  - intros H. right. auto.
Qed.

(** Whatever holds of every entry and of the new one holds after [d[k] = v]. *)
Lemma dict_set_Forall (P : string * V -> Prop) k v d :
  Forall P d -> P (k, v) -> Forall P (dict_set k v d).
Proof.
  intros Hd Hkv. induction Hd as [| [k' v'] rest Hx Hrest IH]; simpl.
  - constructor; auto.
  - destruct (String.eqb k k') eqn:E.
    + apply String.eqb_eq in E; subst k'. constructor; auto.
    + constructor; auto.
Qed.
End AssocFacts.

(** ** Sorting file names *)













(** ** The directory listing (lines 65-68) *)

Lemma print_items_eq files :
  fold_right (fun file rest => print (FileItem file) ;; rest) (ret tt) files
  = (file_items files, Ok tt).
Proof.
  induction files as [| f rest IH]; cbn [fold_right]; [reflexivity |].
  rewrite IH. reflexivity.
Qed.

Lemma list_files_ok fs model_dir files :
  listdir fs model_dir = Ok files ->
  list_files fs model_dir = (listing model_dir files, Ok tt).
Proof.
  intros H. unfold list_files.
  rewrite H, bind_lift_ok, bind_print, print_items_eq. reflexivity.
Qed.

(** ** Finding the results artifact (lines 19-25) *)

Lemma append_nonempty (a b : string) : b <> "" -> (a ++ b)%string <> "".
Proof. destruct a; simpl; [auto | discriminate]. Qed.

Lemma path_join_nonempty a b : b <> "" -> path_join a b <> "".
Proof.
  intros Hb. unfold path_join.
  destruct (String.prefix "/" b); [exact Hb |].
  destruct (String.eqb a "" || endswith a "/").
  - now apply append_nonempty.
  - apply append_nonempty. discriminate.
Qed.

Lemma find_results_file_nonempty model_dir files p :
  find_results_file model_dir files = Some p -> p <> "".
Proof.
  induction files as [| file rest IH]; simpl; [discriminate |].
  destruct (contains "model_results" file && endswith file ".joblib") eqn:E; [| exact IH].
  intros [= <-]. apply path_join_nonempty.
  intros ->. discriminate E.
Qed.

(** ** One directory, case by case *)

Section ProcessDir.
Variable fs : filesystem.
Variables (model_dir : string) (files : list string) (results : assoc dict).
Hypothesis Hdir : path_exists fs model_dir = true.
Hypothesis Hlist : listdir fs model_dir = Ok files.

Lemma process_dir_no_artifact :
  find_results_file model_dir files = None ->
  process_dir fs model_dir results = (listing model_dir files, Ok results).
Proof.
  intros Hfind. unfold process_dir.
  rewrite Hdir, Hlist, bind_lift_ok, Hfind, bind_ret.
  rewrite (list_files_ok _ _ _ Hlist). cbn [negb bind ret].
  now rewrite app_nil_r.
Qed.

Lemma process_dir_artifact_gone p :
  find_results_file model_dir files = Some p ->
  path_exists fs p = false ->
  process_dir fs model_dir results = (listing model_dir files, Ok results).
Proof.
  intros Hfind Hp. unfold process_dir.
  rewrite Hdir, Hlist, bind_lift_ok, Hfind, Hp, andb_false_r, bind_ret.
  rewrite (list_files_ok _ _ _ Hlist). cbn [negb bind ret].
  now rewrite app_nil_r.
Qed.

Section Found.
Variable p : string.
Hypothesis Hfind : find_results_file model_dir files = Some p.
Hypothesis Hp : path_exists fs p = true.

Lemma process_dir_reported out results' :
  load_and_report fs (display_name model_dir) p results = (out, Ok results') ->
  process_dir fs model_dir results = (out ++ listing model_dir files, Ok results').
Proof.
  intros H. unfold process_dir.
  rewrite Hdir, Hlist, bind_lift_ok, Hfind, Hp.
  destruct (String.eqb p "") eqn:E.
  { apply String.eqb_eq in E. now apply find_results_file_nonempty in Hfind. }
  rewrite H. simpl.
  rewrite (list_files_ok _ _ _ Hlist). cbn [negb bind ret].
now rewrite app_nil_r.
Qed.

Lemma process_dir_caught out e :
  load_and_report fs (display_name model_dir) p results = (out, Raise e) ->
  process_dir fs model_dir results
  = (out ++ Print (ErrorLoading p e) :: listing model_dir files, Ok results).
Proof.
  intros H. unfold process_dir.
  rewrite Hdir, Hlist, bind_lift_ok, Hfind, Hp.
  destruct (String.eqb p "") eqn:E.
  { apply String.eqb_eq in E. now apply find_results_file_nonempty in Hfind. }
  rewrite H, (list_files_ok _ _ _ Hlist).
  cbn [negb andb try_except bind ret print].
  now rewrite <- !app_assoc, app_nil_r.
Qed.
End Found.
End ProcessDir.

(** ** Printing the metrics (lines 51-57) *)

Lemma make_info_keys name m : keys (make_info name m) = info_keys.
Proof. reflexivity. Qed.

Lemma make_info_field name m k :
  In k metric_keys ->
  dict_get k (make_info name m) = Some (dict_get_default k (VInt 0) m).
Proof.
  unfold metric_keys. simpl.
  intros [<- | [<- | [<- | [<- | [<- | [<- | [<- | []]]]]]]]; reflexivity.
Qed.

Lemma format_f_cases v :
  format_f v
  = match format_error v with
    | None => ret (match as_num v with Some x => x | None => Fin 0 end)
    | Some e => raise e
    end.
Proof.
  destruct v as [| [|] | z | x | s | l | d]; simpl; try reflexivity.
  destruct (fits_double z); reflexivity.
Qed.

Lemma field_error_pct k m :
  In k pct_keys -> field_error k m = pct_error (dict_get_default k (VInt 0) m).
Proof.
  unfold pct_keys. simpl. intros [<- | [<- | [<- | [<- | [<- | []]]]]]; reflexivity.
Qed.

Lemma field_error_cv k m :
  In k cv_keys -> field_error k m = format_error (dict_get_default k (VInt 0) m).
Proof. unfold cv_keys. simpl. intros [<- | [<- | []]]; reflexivity. Qed.

Lemma pct_keys_metric k : In k pct_keys -> In k metric_keys.
Proof. unfold pct_keys, metric_keys. simpl. tauto. Qed.

Lemma cv_keys_metric k : In k cv_keys -> In k metric_keys.
Proof. unfold cv_keys, metric_keys. simpl. tauto. Qed.

(** One metric line of the entry built from [m]: printed, or the error of
    its field. *)
Lemma print_metric_field label k name m :
  In k pct_keys ->
  print_metric label k (make_info name m)
  = match field_error k m with
    | None => print (Metric label (metric_value k m))
    | Some e => raise e
    end.
Proof.
  intros Hk. rewrite (field_error_pct _ _ Hk).
  unfold print_metric, getitem, pct_error, metric_value.
  rewrite (make_info_field _ _ _ (pct_keys_metric _ Hk)), bind_ret, format_f_cases.
  destruct (format_error (dict_get_default k (VInt 0) m)) eqn:Herr; [reflexivity |].
  rewrite bind_ret.
  destruct (dict_get_default k (VInt 0) m) as [| [|] | z | x | s' | l | d];
    try reflexivity; try discriminate Herr.
  simpl. destruct (fits_double (z * 100)); reflexivity.
Qed.

Lemma format_cv_field k name m :
  In k cv_keys ->
  (v <- getitem (make_info name m) k ;; format_f v)
  = match field_error k m with
    | None => ret (metric_value k m)
    | Some e => raise e
    end.
Proof.
  intros Hk. rewrite (field_error_cv _ _ Hk). unfold getitem, metric_value.
  rewrite (make_info_field _ _ _ (cv_keys_metric _ Hk)), bind_ret.
  apply format_f_cases.
Qed.

(** Lines 51-57 on the entry built from [m], field by field. *)
Lemma print_metrics_fields name m :
  print_metrics (Some name) (make_info name m)
  = (print (BestModel (Some name)) ;;
     match field_error "accuracy" m with
     | None => print (Metric "Accuracy" (metric_value "accuracy" m))
     | Some e => raise e
     end ;;
     match field_error "precision" m with
     | None => print (Metric "Precision" (metric_value "precision" m))
     | Some e => raise e
     end ;;
     match field_error "recall" m with
     | None => print (Metric "Recall" (metric_value "recall" m))
     | Some e => raise e
     end ;;
     match field_error "f1_score" m with
     | None => print (Metric "F1-Score" (metric_value "f1_score" m))
     | Some e => raise e
     end ;;
     match field_error "roc_auc" m with
     | None => print (Metric "ROC AUC" (metric_value "roc_auc" m))
     | Some e => raise e
     end ;;
     mean <- match field_error "cv_mean" m with
             | None => ret (metric_value "cv_mean" m)
             | Some e => raise e
             end ;;
     std <- match field_error "cv_std" m with
            | None => ret (metric_value "cv_std" m)
            | Some e => raise e
            end ;;
     print (CvMean mean std)).
Proof.
  unfold print_metrics.
  rewrite !print_metric_field by (unfold pct_keys; simpl; tauto).
  rewrite !format_cv_field by (unfold cv_keys; simpl; tauto).
  reflexivity.
Qed.

Lemma printable_fields_spec m :
  printable_fields m = true <-> forall k, In k metric_keys -> field_error k m = None.
Proof.
  unfold printable_fields. rewrite forallb_forall. split; intros H k Hk.
  - specialize (H k Hk). destruct (field_error k m); [discriminate | reflexivity].
  - now rewrite (H k Hk).
Qed.

Lemma print_metrics_ok name m :
  printable_fields m = true ->
  print_metrics (Some name) (make_info name m) = (metric_lines name m, Ok tt).
Proof.
  intros Hok. rewrite printable_fields_spec in Hok.
  rewrite print_metrics_fields.
  rewrite !Hok by (unfold metric_keys; simpl; tauto).
  reflexivity.
Qed.

(** The metric lines all get printed only for an entry whose fields are
    printable. *)
Lemma print_metrics_ok_inv name m o u :
  print_metrics (Some name) (make_info name m) = (o, Ok u) ->
  printable_fields m = true.
Proof.
  rewrite print_metrics_fields. intros H.
  apply printable_fields_spec. unfold metric_keys. simpl.
  intros k [<- | [<- | [<- | [<- | [<- | [<- | [<- | []]]]]]]];
    match goal with
    | |- field_error ?k m = None =>
        destruct (field_error k m) eqn:E; [exfalso | reflexivity]
    end;
    repeat match goal with
      | H : context [match field_error ?k' m with _ => _ end] |- _ =>
          destruct (field_error k' m); try discriminate H
      end; discriminate.
Qed.

(** With no best model, [model_info] is still the empty dict of line 16 and
    the first metric line fails on [model_info['accuracy']]. *)
Lemma print_metrics_empty best :
  print_metrics best [] = ([Print (BestModel best)], Raise (KeyError "accuracy")).
Proof. reflexivity. Qed.

(** ** Loading and reporting (lines 27-59), case by case *)

Section LoadAndReport.
Variable fs : filesystem.
Variables (model_name p : string) (results : assoc dict).

Lemma load_fails e :
  joblib_load fs p = Raise e ->
  load_and_report fs model_name p results = ([], Raise e).
Proof. intros H. unfold load_and_report. now rewrite H. Qed.

Lemma load_not_a_dict v :
  joblib_load fs p = Ok v ->
  (forall items, v <> VDict items) ->
  load_and_report fs model_name p results
  = ([Print (Header (upper model_name))], Ok results).
Proof.
  intros H Hv. unfold load_and_report.
  rewrite H, bind_lift_ok, bind_print.
  destruct v; try reflexivity. now destruct (Hv d).
Qed.

Section Mapping.
Variable items : dict.
Hypothesis Hload : joblib_load fs p = Ok (VDict items).

Lemma scan_fails e :
  scan items scan_init = Raise e ->
  load_and_report fs model_name p results
  = ([Print (Header (upper model_name))], Raise e).
Proof.
  intros H. unfold load_and_report.
  now rewrite Hload, bind_lift_ok, bind_print, H.
Qed.

Lemma no_best_model st :
  scan items scan_init = Ok st ->
  model_info st = [] ->
  load_and_report fs model_name p results
  = ([Print (Header (upper model_name)); Print (BestModel (best_model st))],
     Raise (KeyError "accuracy")).
Proof.
  intros H Hinfo. unfold load_and_report.
  rewrite Hload, bind_lift_ok, bind_print, H, bind_lift_ok, Hinfo.
  reflexivity.
Qed.

Lemma best_model_reported name m q :
  scan items scan_init
  = Ok {| best_model := Some name; best_f1 := q; model_info := make_info name m |} ->
  printable_fields m = true ->
  load_and_report fs model_name p results
  = (Print (Header (upper model_name)) :: metric_lines name m,
     Ok (dict_set model_name (make_info name m) results)).
Proof.
  intros H Hnum. unfold load_and_report.
  rewrite Hload, bind_lift_ok, bind_print, H, bind_lift_ok.
  cbn [best_model model_info].
  rewrite (print_metrics_ok _ _ Hnum). reflexivity.
Qed.
End Mapping.
End LoadAndReport.

(** ** The scan for the best model (lines 32-49) *)

Lemma gt_num_le v x b :
  as_num v = Some x -> not_above x b -> gt_num v b = Ok false.
Proof.
  intros Hv Hle. unfold gt_num. rewrite Hv.
  destruct x as [a |]; [| reflexivity].
  apply Qle_bool_iff in Hle. now rewrite Hle.
Qed.

Lemma gt_num_gt v x b :
  as_num v = Some (Fin x) -> (b < x)%Q -> gt_num v b = Ok true.
Proof.
  intros Hv Hlt. unfold gt_num. rewrite Hv.
  destruct (Qle_bool x b) eqn:E; [| reflexivity].
  apply Qle_bool_iff in E. exfalso. exact (Qlt_not_le _ _ Hlt E).
Qed.

Lemma scan_skip entry rest st :
  f1_le (best_f1 st) entry -> scan (entry :: rest) st = scan rest st.
Proof.
  destruct entry as [name v]. unfold f1_le, f1_field. simpl.
  destruct v; try reflexivity.
  destruct (dict_get "f1_score" d) as [f1 |]; [| reflexivity].
  intros (x & Hx & Hle). now rewrite (gt_num_le _ _ _ Hx Hle).
Qed.

Lemma scan_take name m v q rest st :
  dict_get "f1_score" m = Some v -> as_num v = Some (Fin q) -> (best_f1 st < q)%Q ->
  scan ((name, VDict m) :: rest) st
  = scan rest {| best_model := Some name; best_f1 := q;
                 model_info := make_info name m |}.
Proof.
  intros Hf Hv Hlt. simpl. rewrite Hf, (gt_num_gt _ _ _ Hv Hlt), Hv. reflexivity.
Qed.

(** Entries that do not beat the running best leave the state alone. *)
Lemma scan_le items :
  forall st, Forall (f1_le (best_f1 st)) items -> scan items st = Ok st.
Proof.
  induction items as [| entry rest IH]; intros st H; [reflexivity |].
  inversion H; subst. rewrite scan_skip by assumption. now apply IH.
Qed.

(** Entries below [q] leave the running best below [q]. *)
Lemma scan_below q pre rest :
  Forall (f1_lt q) pre ->
  forall st, (best_f1 st < q)%Q ->
  exists st', scan (pre ++ rest) st = scan rest st' /\ (best_f1 st' < q)%Q.
Proof.
  induction 1 as [| entry pre Hentry Hpre IH]; intros st Hst.
  - exists st. auto.
  - destruct entry as [name v]. unfold f1_lt, f1_field in Hentry. simpl in Hentry.
    destruct v; try (simpl; apply IH; assumption).
    destruct (dict_get "f1_score" d) as [f1 |] eqn:Hf.
    + destruct Hentry as ([x |] & Hx & Hlt).
      * destruct (Qlt_le_dec (best_f1 st) x) as [Hgt | Hle].
        -- rewrite <- app_comm_cons, (scan_take _ _ _ _ _ _ Hf Hx Hgt).
           apply IH. exact Hlt.
        -- rewrite <- app_comm_cons, scan_skip.
           ++ apply IH. exact Hst.
           ++ unfold f1_le, f1_field. simpl. rewrite Hf. exists (Fin x). auto.
      * rewrite <- app_comm_cons, scan_skip.
        -- apply IH. exact Hst.
        -- unfold f1_le, f1_field. simpl. rewrite Hf. exists NaN. auto.
    + simpl. rewrite Hf. apply IH. exact Hst.
Qed.

(** The scan ends on the first maximum, when that beats the initial best. *)
Lemma scan_first_maximum items name m q st :
  first_maximum items name m q -> (best_f1 st < q)%Q ->
  scan items st
  = Ok {| best_model := Some name; best_f1 := q; model_info := make_info name m |}.
Proof.
  intros (pre & post & v & -> & Hf & Hv & Hpre & Hpost) Hst.
  destruct (scan_below q pre ((name, VDict m) :: post) Hpre st Hst) as (st' & -> & Hst').
  rewrite (scan_take _ _ _ _ _ _ Hf Hv Hst').
  now apply scan_le.
Qed.

(** A mapping whose [f1_score]s are numbers either has none above [b], or
    has a first maximum above [b]. *)
Lemma first_maximum_exists items :
  numeric_f1 items ->
  forall b, Forall (f1_le b) items \/
            exists name m q, first_maximum items name m q /\ (b < q)%Q.
Proof.
  induction 1 as [| entry rest Hentry Hrest IH]; intros b; [left; constructor |].
  assert (forall x, f1_field entry = None \/
                    (exists v, f1_field entry = Some v /\ as_num v = Some x /\
                               not_above x b) ->
                    Forall (f1_le b) (entry :: rest) \/
                    exists name m q, first_maximum (entry :: rest) name m q /\ (b < q)%Q)
    as Hskip.
  { intros x Hx.
    assert (f1_le b entry) as Hle.
    { unfold f1_le. destruct Hx as [-> | (v & -> & Hv & Hb)]; [exact I | eauto]. }
    destruct (IH b) as [Hall | (name & m & q & Hmax & Hq)].
    - left. constructor; assumption.
    - right. exists name, m, q. split; [| exact Hq].
      destruct Hmax as (pre & post & v' & -> & Hf' & Hv' & Hpre & Hpost).
      exists (entry :: pre), post, v'. repeat split; auto.
      constructor; [| exact Hpre].
      unfold f1_lt. destruct Hx as [-> | (v & -> & Hv & Hb)]; [exact I |].
      exists x. split; [exact Hv |].
      destruct x as [a |]; [| exact I]. simpl in *. eapply Qle_lt_trans; eauto. }
  destruct (f1_field entry) as [v |] eqn:Hf; [| apply (Hskip NaN); now left].
  destruct (as_num v) as [[x |] |] eqn:Hx; [| | contradiction].
  2:{ apply (Hskip NaN). right. exists v. repeat split; auto. }
  destruct (Qlt_le_dec b x) as [Hgt | Hle].
  2:{ apply (Hskip (Fin x)). right. exists v. auto. }
  right. destruct (IH x) as [Hall | (name & m & q & Hmax & Hq)].
  - destruct entry as [name [| | | | | | m]]; try discriminate Hf.
    exists name, m, x. split; [| exact Hgt].
    exists [], rest, v. repeat split; auto.
  - exists name, m, q. split; [| eapply Qlt_trans; eauto].
    destruct Hmax as (pre & post & v' & -> & Hf' & Hv' & Hpre & Hpost).
    exists (entry :: pre), post, v'. repeat split; auto.
    constructor; [| exact Hpre].
    unfold f1_lt. rewrite Hf. exists (Fin x). auto.
Qed.

Lemma scan_init_ok : state_ok scan_init.
Proof. split; [apply Qle_refl | left; auto]. Qed.

Lemma scan_state_ok items :
  forall st st', state_ok st -> scan items st = Ok st' -> state_ok st'.
Proof.
  induction items as [| [name v] rest IH]; intros st st' Hst; simpl.
  - now intros [= <-].
  - destruct v; try (apply IH; assumption).
    destruct (dict_get "f1_score" d) as [f1 |] eqn:Hf; [| apply IH; assumption].
    unfold gt_num. destruct (as_num f1) as [[x |] |] eqn:Hx;
      [| apply IH; assumption | discriminate].
    destruct (Qle_bool x (best_f1 st)) eqn:E; simpl; [apply IH; assumption |].
    apply IH.
    assert (best_f1 st < x)%Q as Hlt.
    { apply Qnot_le_lt. intros Hle. apply Qle_bool_iff in Hle. congruence. }
    destruct Hst as [H0 _].
    split; simpl; [eapply Qle_trans; [exact H0 | now apply Qlt_le_weak] |].
    right. exists name, d, f1. repeat split; auto.
    eapply Qle_lt_trans; eauto.
Qed.

(** ** What one directory can do to the summary *)

Lemma process_dir_absent fs model_dir results :
  path_exists fs model_dir = false ->
  process_dir fs model_dir results = ([], Ok results).
Proof. intros H. unfold process_dir. now rewrite H. Qed.

Lemma process_dir_unlistable fs model_dir results e :
  path_exists fs model_dir = true ->
  listdir fs model_dir = Raise e ->
  process_dir fs model_dir results = ([], Raise e).
Proof. intros H1 H2. unfold process_dir. now rewrite H1, H2. Qed.

Lemma load_and_report_inv fs model_name p results out results' :
  load_and_report fs model_name p results = (out, Ok results') ->
  results' = results \/
  exists info, from_positive_f1 info /\ results' = dict_set model_name info results.
Proof.
  intros H.
  destruct (joblib_load fs p) as [v | e] eqn:Hload.
  2:{ rewrite (load_fails _ _ _ _ _ Hload) in H. discriminate. }
  destruct v as [| | | | | | items];
    try (rewrite (load_not_a_dict _ _ _ _ _ Hload) in H by discriminate;
         injection H as _ <-; now left).
  destruct (scan items scan_init) as [st | e] eqn:Hscan.
  2:{ rewrite (scan_fails _ _ _ _ _ Hload _ Hscan) in H. discriminate. }
  destruct (scan_state_ok _ _ _ scan_init_ok Hscan)
    as [_ [[_ Hnone] | (name & m & v & Hbest & Hinfo & Hf & Hv & Hpos)]].
  { rewrite (no_best_model _ _ _ _ _ Hload _ Hscan Hnone) in H. discriminate. }
  right. exists (model_info st). split.
  { exists name, m, v, (best_f1 st). auto. }
  unfold load_and_report in H.
  rewrite Hload, bind_lift_ok, bind_print, Hscan, bind_lift_ok in H.
  injection H as _ H.
  destruct (print_metrics (best_model st) (model_info st)) as [o [[] | e]];
    simpl in H; congruence.
Qed.

Lemma process_dir_inv fs model_dir results out results' :
  process_dir fs model_dir results = (out, Ok results') ->
  results' = results \/
  exists info,
    from_positive_f1 info /\
    results' = dict_set (display_name model_dir) info results.
Proof.
  intros H.
  destruct (path_exists fs model_dir) eqn:Hdir.
  2:{ rewrite (process_dir_absent _ _ _ Hdir) in H. injection H as _ <-. now left. }
  destruct (listdir fs model_dir) as [files | e] eqn:Hlist.
  2:{ rewrite (process_dir_unlistable _ _ _ _ Hdir Hlist) in H. discriminate. }
  destruct (find_results_file model_dir files) as [p |] eqn:Hfind.
  2:{ rewrite (process_dir_no_artifact _ _ _ _ Hdir Hlist Hfind) in H.
      injection H as _ <-. now left. }
  destruct (path_exists fs p) eqn:Hp.
  2:{ rewrite (process_dir_artifact_gone _ _ _ _ Hdir Hlist _ Hfind Hp) in H.
      injection H as _ <-. now left. }
  destruct (load_and_report fs (display_name model_dir) p results)
    as [o [r | e]] eqn:Hrep.
  - rewrite (process_dir_reported _ _ _ _ Hdir Hlist _ Hfind Hp _ _ Hrep) in H.
    injection H as _ <-. eapply load_and_report_inv; eauto.
  - rewrite (process_dir_caught _ _ _ _ Hdir Hlist _ Hfind Hp _ _ Hrep) in H.
    injection H as _ <-. now left.
Qed.

(** ** The loop over the directories (lines 11-68) *)

Lemma process_dirs_cons_inv fs model_dir rest results out results' :
  process_dirs fs (model_dir :: rest) results = (out, Ok results') ->
  exists o1 r1 o2,
    process_dir fs model_dir results = (o1, Ok r1) /\
    process_dirs fs rest r1 = (o2, Ok results') /\ out = o1 ++ o2.
Proof. simpl. apply bind_ok_inv. Qed.

(** A directory only touches its own key. *)
Lemma process_dir_other_key fs model_dir results out results' k :
  process_dir fs model_dir results = (out, Ok results') ->
  k <> display_name model_dir ->
  dict_get k results' = dict_get k results.
Proof.
  intros H Hk. destruct (process_dir_inv _ _ _ _ _ H) as [-> | (info & _ & ->)].
  - reflexivity.
  - now apply dict_get_set_other.
Qed.

Lemma process_dirs_other_key fs dirs k :
  ~ In k (map display_name dirs) ->
  forall results out results',
    process_dirs fs dirs results = (out, Ok results') ->
    dict_get k results' = dict_get k results.
Proof.
  induction dirs as [| d rest IH]; intros Hk results out results' H.
  - injection H as _ <-. reflexivity.
  - apply process_dirs_cons_inv in H as (o1 & r1 & o2 & H1 & H2 & _).
    simpl in Hk. rewrite (IH (fun Hin => Hk (or_intror Hin)) _ _ _ H2).
    eapply process_dir_other_key; eauto.
Qed.

(** With distinct display names, the key of a directory ends up as that
    directory's own iteration left it. *)
Lemma process_dirs_own_key fs dirs model_dir :
  NoDup (map display_name dirs) -> In model_dir dirs ->
  forall results out results',
    process_dirs fs dirs results = (out, Ok results') ->
    exists r0 o1 r1,
      process_dir fs model_dir r0 = (o1, Ok r1) /\
      dict_get (display_name model_dir) r0 = dict_get (display_name model_dir) results /\
      dict_get (display_name model_dir) results' = dict_get (display_name model_dir) r1.
Proof.
  induction dirs as [| d rest IH]; intros Hnd Hin results out results' H; [easy |].
  simpl in Hnd. inversion Hnd as [| ? ? Hd Hrest]; subst.
  apply process_dirs_cons_inv in H as (o1 & r1 & o2 & H1 & H2 & _).
  destruct Hin as [-> | Hin].
  - exists results, o1, r1. repeat split; auto.
    eapply process_dirs_other_key; eauto.
  - destruct (IH Hrest Hin _ _ _ H2) as (r0 & o & r & Hstep & Hbefore & Hafter).
    exists r0, o, r. repeat split; auto.
    rewrite Hbefore. eapply process_dir_other_key; eauto.
    intros Heq. apply Hd. rewrite <- Heq. now apply in_map.
Qed.

Lemma model_dirs_distinct : NoDup (map display_name model_dirs).
Proof.
  vm_compute. repeat constructor; simpl; intuition discriminate.
Qed.

Lemma check_returns_inv fs out results :
  check_model_performance fs = (out, Ok results) ->
  exists o, process_dirs fs model_dirs [] = (o, Ok results) /\
            out = o ++ [Dump summary_file results; Print SummarySaved].
Proof.
  unfold check_model_performance. intros H.
  apply bind_ok_inv in H as (o & r & o2 & H1 & H2 & ->).
  cbn in H2. injection H2 as <- <-. eauto.
Qed.

(** ** Which events a directory can produce *)

Lemma bind_events {A B} (P : event -> Prop) (m : M A) (f : A -> M B) :
  Forall P (fst m) -> (forall a, Forall P (fst (f a))) ->
  Forall P (fst (bind m f)).
Proof.
  intros Hm Hf. unfold bind. destruct m as [o [a | e]]; simpl in *; [| exact Hm].
  specialize (Hf a). destruct (f a) as [o' r]. simpl in *.
  apply Forall_app. auto.
Qed.

Lemma lift_events {A} (P : event -> Prop) (r : result A) : Forall P (fst (lift r)).
Proof. constructor. Qed.

Lemma ret_events {A} (P : event -> Prop) (a : A) : Forall P (fst (ret a)).
Proof. constructor. Qed.

Lemma getitem_events (P : event -> Prop) d k : Forall P (fst (getitem d k)).
Proof. unfold getitem. destruct (dict_get k d); constructor. Qed.

Lemma format_events (P : event -> Prop) v : Forall P (fst (format_f v)).
Proof.
  rewrite format_f_cases. destruct (format_error v); constructor.
Qed.

Lemma format_pct_events (P : event -> Prop) v : Forall P (fst (format_pct v)).
Proof.
  destruct v as [| | z | | | |]; try constructor.
  simpl. destruct (fits_double (z * 100)); constructor.
Qed.

Lemma print_events (P : event -> Prop) l : P (Print l) -> Forall P (fst (print l)).
Proof. intros H. repeat constructor. exact H. Qed.

Create HintDb events.
#[local] Hint Resolve bind_events lift_events ret_events getitem_events
  format_events format_pct_events print_events : events.

Lemma print_metrics_events model_dir best info :
  Forall (report_event model_dir) (fst (print_metrics best info)).
Proof.
  unfold print_metrics, print_metric.
  repeat (apply bind_events; [| intros ]); auto with events;
    apply print_events; exact I.
Qed.

Lemma load_and_report_events fs model_dir p results :
  Forall (report_event model_dir)
         (fst (load_and_report fs (display_name model_dir) p results)).
Proof.
  unfold load_and_report.
  apply bind_events; [auto with events | intros v].
  apply bind_events; [apply print_events; reflexivity | intros _].
  destruct v; auto with events.
  apply bind_events; [auto with events | intros st].
  apply bind_events; [apply print_metrics_events | auto with events].
Qed.

Lemma listing_events model_dir files :
  Forall (listing_event model_dir) (listing model_dir files).
Proof.
  constructor; [reflexivity |].
  unfold file_items. apply Forall_map, Forall_forall. intros; exact I.
Qed.

(** A directory that passed the existence test and could be listed is
    never the end of the run: whatever happens inside the [try] is caught,
    and the listing section closes the directory's output. *)
Lemma process_dir_returns fs model_dir files results :
  path_exists fs model_dir = true ->
  listdir fs model_dir = Ok files ->
  exists before results',
    process_dir fs model_dir results = (before ++ listing model_dir files, Ok results') /\
    Forall (report_event model_dir) before.
Proof.
  intros Hdir Hlist.
  destruct (find_results_file model_dir files) as [p |] eqn:Hfind.
  - destruct (path_exists fs p) eqn:Hp.
    + pose proof (load_and_report_events fs model_dir p results) as Hev.
      destruct (load_and_report fs (display_name model_dir) p results)
        as [out [r | e]] eqn:H.
      * exists out, r. split; [| exact Hev]. eapply process_dir_reported; eauto.
      * exists (out ++ [Print (ErrorLoading p e)]), results. split.
        -- rewrite <- app_assoc. eapply process_dir_caught; eauto.
        -- apply Forall_app. split; [exact Hev | repeat constructor].
    + exists [], results. split; [| constructor].
      eapply process_dir_artifact_gone; eauto.
  - exists [], results. split; [| constructor].
    eapply process_dir_no_artifact; eauto.
Qed.

Lemma process_dir_events fs model_dir results :
  Forall (dir_event model_dir) (fst (process_dir fs model_dir results)).
Proof.
  destruct (path_exists fs model_dir) eqn:Hdir.
  2:{ rewrite (process_dir_absent _ _ _ Hdir). constructor. }
  destruct (listdir fs model_dir) as [files | e] eqn:Hlist.
  2:{ rewrite (process_dir_unlistable _ _ _ _ Hdir Hlist). constructor. }
  destruct (process_dir_returns _ _ _ results Hdir Hlist) as (before & r & -> & Hev).
  simpl. apply Forall_app. split.
  - eapply Forall_impl; [| exact Hev]. intros ev H. now left.
  - eapply Forall_impl; [| apply listing_events]. intros ev H. now right.
Qed.

Lemma process_dirs_events fs dirs :
  forall results,
    Forall (fun ev => exists model_dir,
                In model_dir dirs /\ path_exists fs model_dir = true /\
                dir_event model_dir ev)
           (fst (process_dirs fs dirs results)).
Proof.
  induction dirs as [| d rest IH]; intros results; [constructor |].
  simpl. apply bind_events.
  - destruct (path_exists fs d) eqn:Hd.
    + eapply Forall_impl; [| apply process_dir_events].
      intros ev Hev. exists d. auto.
    + rewrite (process_dir_absent _ _ _ Hd). constructor.
  - intros r. eapply Forall_impl; [| apply IH].
    intros ev (d' & Hin & Hex & Hev). exists d'. auto.
Qed.

(** ** The points of a run *)

Lemma reaches_suffix fs dirs results :
  reaches fs dirs results -> exists done, model_dirs = done ++ dirs.
Proof.
  induction 1 as [| d rest r out r' _ [done IH] _].
  - now exists [].
  - exists (done ++ [d]). now rewrite <- app_assoc.
Qed.

Lemma reaches_end fs dirs :
  forall results out results',
    reaches fs dirs results ->
    process_dirs fs dirs results = (out, Ok results') ->
    reaches fs [] results'.
Proof.
  induction dirs as [| d rest IH]; intros results out results' Hr H.
  - injection H as _ <-. exact Hr.
  - apply process_dirs_cons_inv in H as (o1 & r1 & o2 & H1 & H2 & _).
    eapply IH; [| exact H2]. econstructor; eauto.
Qed.

Lemma returned_reaches fs out results :
  check_model_performance fs = (out, Ok results) -> reaches fs [] results.
Proof.
  intros H. apply check_returns_inv in H as (o & H & _).
  eapply reaches_end; [constructor | exact H].
Qed.

(** A property of summary entries that every write establishes holds of
    the whole summary at every point of the run. *)
Lemma reaches_Forall fs (P : string * dict -> Prop) :
  (forall model_dir info,
      In model_dir model_dirs -> from_positive_f1 info ->
      P (display_name model_dir, info)) ->
  forall dirs results, reaches fs dirs results -> Forall P results.
Proof.
  intros HP dirs results H.
  induction H as [| d rest r out r' Hr IH Hstep]; [constructor |].
  destruct (process_dir_inv _ _ _ _ _ Hstep) as [-> | (info & Hinfo & ->)]; [exact IH |].
  apply dict_set_Forall; [exact IH |]. apply HP; [| exact Hinfo].
  destruct (reaches_suffix _ _ _ Hr) as [done ->].
  apply in_or_app. right. now left.
Qed.

(** ** Well-typed metrics, as a check *)

Lemma numeric_fieldsb_spec m : numeric_fieldsb m = true -> numeric_fields m.
Proof.
  unfold numeric_fieldsb, numeric_fields. rewrite forallb_forall.
  intros H k v Hk Hv. specialize (H k Hk). rewrite Hv in H.
  unfold is_num in H. destruct (as_num v); [discriminate | discriminate H].
Qed.

Lemma format_error_is_num v : format_error v = None -> is_num v = true.
Proof.
  destruct v as [| [|] | z | x | s | l | d]; intros H; try reflexivity;
    discriminate H.
Qed.

Lemma field_error_is_num k m :
  field_error k m = None -> is_num (dict_get_default k (VInt 0) m) = true.
Proof.
  unfold field_error, pct_error.
  destruct (String.eqb k "cv_mean" || String.eqb k "cv_std").
  - apply format_error_is_num.
  - destruct (format_error (dict_get_default k (VInt 0) m)) eqn:E; [discriminate |].
    intros _. now apply format_error_is_num.
Qed.

Lemma printable_fields_numeric m :
  printable_fields m = true -> numeric_fieldsb m = true.
Proof.
  rewrite printable_fields_spec. intros H.
  unfold numeric_fieldsb. apply forallb_forall. intros k Hk.
  pose proof (field_error_is_num _ _ (H k Hk)) as Hnum.
  unfold dict_get_default in Hnum. destruct (dict_get k m); [exact Hnum | reflexivity].
Qed.

Lemma printable_metrics_entry items name m :
  printable_metrics items = true -> In (name, VDict m) items ->
  dict_has "f1_score" m = true -> printable_fields m = true.
Proof.
  unfold printable_metrics. rewrite forallb_forall. intros H Hin Hf.
  specialize (H _ Hin). simpl in H. now rewrite Hf in H.
Qed.

Lemma printable_metrics_f1 items : printable_metrics items = true -> numeric_f1 items.
Proof.
  intros H. apply Forall_forall. intros [name v] Hin.
  unfold f1_field. simpl. destruct v; auto.
  destruct (dict_get "f1_score" d) as [f1 |] eqn:Hf; auto.
  assert (dict_has "f1_score" d = true) as Hhas by (unfold dict_has; now rewrite Hf).
  pose proof (printable_fields_numeric _ (printable_metrics_entry _ _ _ H Hin Hhas))
    as Hnum.
  apply (numeric_fieldsb_spec _ Hnum "f1_score" f1); auto.
  unfold metric_keys. simpl. tauto.
Qed.

Lemma first_maximum_In items name m q :
  first_maximum items name m q ->
  In (name, VDict m) items /\ dict_has "f1_score" m = true.
Proof.
  intros (pre & post & v & -> & Hf & _). split.
  - apply in_or_app. right. now left.
  - unfold dict_has. now rewrite Hf.
Qed.

(** ** From one directory to the returned summary *)

Section RunLevel.
Variable fs : filesystem.
Variable model_dir : string.
Hypothesis Hconfigured : In model_dir model_dirs.

(** A directory whose iteration leaves the summary alone has no key in
    the summary the run returns. *)
Lemma untouched_dir_has_no_entry :
  (forall results, exists out, process_dir fs model_dir results = (out, Ok results)) ->
  forall out results,
    check_model_performance fs = (out, Ok results) ->
    dict_get (display_name model_dir) results = None.
Proof.
  intros Hskip out results H.
  apply check_returns_inv in H as (o & H & _).
  destruct (process_dirs_own_key _ _ _ model_dirs_distinct Hconfigured _ _ _ H)
    as (r0 & o1 & r1 & Hstep & Hbefore & ->).
  destruct (Hskip r0) as [o' Heq]. rewrite Heq in Hstep.
  injection Hstep as _ <-. exact Hbefore.
Qed.

(** A directory whose iteration writes [info] has [info] under its name
    in the summary the run returns. *)
Lemma written_dir_has_entry info :
  (forall results, exists out,
      process_dir fs model_dir results
      = (out, Ok (dict_set (display_name model_dir) info results))) ->
  forall out results,
    check_model_performance fs = (out, Ok results) ->
    dict_get (display_name model_dir) results = Some info.
Proof.
  intros Hset out results H.
  apply check_returns_inv in H as (o & H & _).
  destruct (process_dirs_own_key _ _ _ model_dirs_distinct Hconfigured _ _ _ H)
    as (r0 & o1 & r1 & Hstep & _ & ->).
  destruct (Hset r0) as [o' Heq]. rewrite Heq in Hstep.
  injection Hstep as _ <-. apply dict_get_set_same.
Qed.
End RunLevel.

(** ** A directory with a loadable mapping *)

Section MappingArtifact.
Variable fs : filesystem.
Variables (model_dir : string) (files : list string) (p : string) (items : dict).
Hypothesis Hdir : path_exists fs model_dir = true.
Hypothesis Hlist : listdir fs model_dir = Ok files.
Hypothesis Hfind : find_results_file model_dir files = Some p.
Hypothesis Hp : path_exists fs p = true.
Hypothesis Hload : joblib_load fs p = Ok (VDict items).

(** The first maximum, when positive and well-typed, is reported and
    written to the summary. *)
Lemma process_dir_records name m q results :
  first_maximum items name m q -> (0 < q)%Q -> printable_fields m = true ->
  process_dir fs model_dir results
  = (Print (Header (upper (display_name model_dir)))
       :: metric_lines name m ++ listing model_dir files,
     Ok (dict_set (display_name model_dir) (make_info name m) results)).
Proof.
  intros Hmax Hq Hnum.
  pose proof (scan_first_maximum items name m q scan_init Hmax Hq) as Hscan.
  rewrite (process_dir_reported _ _ _ _ Hdir Hlist _ Hfind Hp _ _
             (best_model_reported _ _ _ _ _ Hload _ _ _ Hscan Hnum)).
  reflexivity.
Qed.

(** When no [f1_score] is above 0, nothing is selected: [model_info] is
    still empty when line 52 reads it, and the handler of line 61 reports
    the [KeyError]. *)
Lemma no_best_model_caught results :
  Forall (f1_le 0) items ->
  process_dir fs model_dir results
  = ([Print (Header (upper (display_name model_dir)));
      Print (BestModel None);
      Print (ErrorLoading p (KeyError "accuracy"))] ++ listing model_dir files,
     Ok results).
Proof.
  intros Hle.
  pose proof (scan_le items scan_init Hle) as Hscan.
  rewrite (process_dir_caught _ _ _ _ Hdir Hlist _ Hfind Hp _ _
             (no_best_model _ _ _ _ _ Hload _ Hscan eq_refl)).
  reflexivity.
Qed.
End MappingArtifact.

(** ** Sample runs *)

Example two_models_run :
  check_model_performance (k2_host (Ok (VDict two_models)))
  = ([ Print (Header "K2"); Print (BestModel (Some "B"));
       Print (Metric "Accuracy" (Fin (85 # 100))); Print (Metric "Precision" (Fin 0));
       Print (Metric "Recall" (Fin 0)); Print (Metric "F1-Score" (Fin (95 # 100)));
       Print (Metric "ROC AUC" (Fin 0)); Print (CvMean (Fin 0) (Fin 0));
       Print (FilesIn "models/k2");
       Print (FileItem "best_model.joblib");
       Print (FileItem "k2_model_results.joblib");
       Print (FileItem "scaler.joblib");
       Dump summary_file [("k2", make_info "B" [("f1_score", VFloat (Fin (95 # 100)));
                                                ("accuracy", VFloat (Fin (85 # 100)))])];
       Print SummarySaved ],
     Ok [("k2", make_info "B" [("f1_score", VFloat (Fin (95 # 100)));
                               ("accuracy", VFloat (Fin (85 # 100)))])]).
Proof. reflexivity. Qed.

Example tied_models_keep_first :
  snd (check_model_performance (k2_host (Ok (VDict tied_models))))
  = Ok [("k2", make_info "Z" [("f1_score", VFloat (Fin (9 # 10)))])].
Proof. reflexivity. Qed.

(** ** The keys of the summary *)

Lemma dict_get_None_keys {V} k (d : assoc V) :
  dict_get k d = None <-> ~ In k (keys d).
Proof.
  induction d as [| [k' v] rest IH]; simpl; [tauto |].
  destruct (String.eqb_spec k k') as [-> | Hne].
  - split; [discriminate | intros H; exfalso; apply H; now left].
  - rewrite IH. split; [intros H [Heq | Hin]; [congruence | auto] | tauto].
Qed.

Lemma dict_set_keys_new {V} k (v : V) d :
  ~ In k (keys d) -> keys (dict_set k v d) = keys d ++ [k].
Proof.
  induction d as [| [k' v'] rest IH]; simpl; [reflexivity |].
  intros Hk. destruct (String.eqb_spec k k') as [-> | Hne]; [tauto |].
  simpl. f_equal. apply IH. tauto.
Qed.

Lemma process_dirs_keys fs dirs :
  NoDup (map display_name dirs) ->
  forall results out results',
    (forall d, In d dirs -> ~ In (display_name d) (keys results)) ->
    process_dirs fs dirs results = (out, Ok results') ->
    exists f, keys results' = keys results ++ filter f (map display_name dirs).
Proof.
  induction dirs as [| d rest IH]; intros Hnd results out results' Hfresh H.
  - injection H as _ <-. exists (fun _ => true). simpl. now rewrite app_nil_r.
  - simpl in Hnd. inversion Hnd as [| ? ? Hd Hrest]; subst.
    apply process_dirs_cons_inv in H as (o1 & r1 & o2 & H1 & H2 & _).
    assert (forall f (b : bool),
               filter (fun k => if String.eqb k (display_name d) then b else f k)
                      (map display_name rest)
               = filter f (map display_name rest)) as Hfilter.
    { intros f b. apply filter_ext_in. intros k Hk.
      destruct (String.eqb_spec k (display_name d)) as [-> | _]; [contradiction | reflexivity]. }
    destruct (process_dir_inv _ _ _ _ _ H1) as [-> | (info & _ & ->)].
    + destruct (IH Hrest _ _ _ (fun d' Hin => Hfresh d' (or_intror Hin)) H2) as [f Hf].
      exists (fun k => if String.eqb k (display_name d) then false else f k).
      cbn [map filter]. now rewrite String.eqb_refl, Hfilter.
    + assert (keys (dict_set (display_name d) info results)
              = keys results ++ [display_name d]) as Hkeys
        by (apply dict_set_keys_new, Hfresh; now left).
      assert (forall d', In d' rest ->
                         ~ In (display_name d')
                              (keys (dict_set (display_name d) info results)))
        as Hfresh'.
      { intros d' Hin. rewrite Hkeys. intros Hk.
        apply in_app_or in Hk as [Hk | [Hk | []]].
        - exact (Hfresh d' (or_intror Hin) Hk).
        - apply Hd. rewrite Hk. now apply in_map. }
      destruct (IH Hrest _ _ _ Hfresh' H2) as [f Hf].
      exists (fun k => if String.eqb k (display_name d) then true else f k).
      cbn [map filter]. rewrite String.eqb_refl, Hfilter, Hf, Hkeys.
      now rewrite <- app_assoc.
Qed.

(** ** Writing the summary and reading it back (line 72) *)

Lemma dict_set_new {V} k (v : V) (d : assoc V) :
  ~ In k (keys d) -> dict_set k v d = d ++ [(k, v)].
Proof.
  induction d as [| [k' v'] rest IH]; simpl; [reflexivity |].
  intros Hk. destruct (String.eqb_spec k k') as [-> | Hne]; [tauto |].
  f_equal. apply IH. tauto.
Qed.

Lemma NoDup_dict_get {V} k (v : V) (d : assoc V) :
  NoDup (keys d) -> In (k, v) d -> dict_get k d = Some v.
Proof.
  induction d as [| [k' v'] rest IH]; simpl; [tauto |].
  intros Hnd [[= -> ->] | Hin].
  - now rewrite String.eqb_refl.
  - inversion Hnd as [| ? ? Hk' Hrest]; subst.
    destruct (String.eqb_spec k k') as [-> | _]; [| now apply IH].
    exfalso. apply Hk'. change k' with (fst (k', v)). now apply in_map.
Qed.

(** Reading an object whose names are distinct gives its members in order. *)
Lemma read_members (g : json -> value) ms :
  forall d0,
    NoDup (keys d0 ++ map fst ms) ->
    fold_left (fun d kv => dict_set (fst kv) (g (snd kv)) d) ms d0
    = d0 ++ map (fun kv => (fst kv, g (snd kv))) ms.
Proof.
  induction ms as [| [k j] ms IH]; intros d0 Hnd; simpl.
  - now rewrite app_nil_r.
  - simpl in Hnd. rewrite dict_set_new.
    + rewrite IH.
      * now rewrite <- app_assoc.
      * unfold keys in *. rewrite map_app, <- app_assoc. exact Hnd.
    + apply NoDup_remove_2 in Hnd. intros Hin. apply Hnd.
      apply in_or_app. now left.
Qed.

Lemma dict_round_trip d :
  NoDup (keys d) ->
  Forall (fun kv => value_of (json_of (snd kv)) = snd kv) d ->
  value_of (json_of (VDict d)) = VDict d.
Proof.
  intros Hnd Hall. cbn [json_of value_of]. f_equal.
  rewrite read_members.
  - cbn [app]. rewrite map_map. cbn [fst snd].
    rewrite <- (map_id d) at 2. apply map_ext_in.
    intros [k v] Hin. rewrite Forall_forall in Hall.
    specialize (Hall _ Hin). simpl in *. now rewrite Hall.
  - cbn [keys app map]. rewrite map_map. exact Hnd.
Qed.

Lemma scalar_round_trip v : is_scalar v = true -> value_of (json_of v) = v.
Proof. destruct v; try reflexivity; discriminate. Qed.

Lemma forallb_ext_in {A} (f g : A -> bool) l :
  (forall x, In x l -> f x = g x) -> forallb f l = forallb g l.
Proof.
  induction l as [| x l IH]; intros H; simpl; [reflexivity |].
  rewrite (H x (or_introl eq_refl)), IH; [reflexivity |].
  intros y Hy. apply H. now right.
Qed.

Lemma forallb_of_map {A B} (f : B -> bool) (g : A -> B) l :
  forallb f (map g l) = forallb (fun x => f (g x)) l.
Proof. induction l as [| x l IH]; simpl; [reflexivity | now rewrite IH]. Qed.

(** A dict with distinct keys equals itself exactly when each of its
    values does. *)
Lemma dict_eq_self d :
  NoDup (keys d) ->
  py_eq (VDict d) (VDict d) = forallb (fun kv => py_eq (snd kv) (snd kv)) d.
Proof.
  intros Hnd. cbn [py_eq]. rewrite Nat.eqb_refl. cbn [andb].
  apply forallb_ext_in. intros [k v] Hin. cbn [fst snd].
  now rewrite (NoDup_dict_get _ _ _ Hnd Hin).
Qed.

Lemma scalar_eq_self v : is_scalar v = true -> py_eq v v = negb (is_nan v).
Proof.
  destruct v as [| [|] | z | [q |] | s | l | d]; try reflexivity; try discriminate;
    intros _; simpl.
  - apply Qeq_bool_iff. reflexivity.
  - apply Qeq_bool_iff. reflexivity.
  - apply String.eqb_refl.
Qed.

(** What can sit in a written entry: a string under [model_name], numbers
    under the metric keys. *)
Lemma written_entry_shape info :
  written_entry info ->
  NoDup (keys info) /\ Forall (fun kv => is_scalar (snd kv) = true) info.
Proof.
  intros (name & m & -> & Hok). split.
  - rewrite make_info_keys. unfold info_keys, metric_keys.
    repeat constructor; simpl; intuition discriminate.
  - rewrite printable_fields_spec in Hok.
    assert (forall k, In k metric_keys ->
                      is_scalar (dict_get_default k (VInt 0) m) = true) as Hs.
    { intros k Hk. pose proof (field_error_is_num _ _ (Hok k Hk)) as Hnum.
      unfold is_num in Hnum.
      destruct (dict_get_default k (VInt 0) m); try reflexivity; discriminate. }
    unfold make_info.
    repeat (constructor; [first [reflexivity
                               | apply Hs; unfold metric_keys; simpl; tauto] |]).
    constructor.
Qed.

Lemma load_and_report_written fs model_name p results out results' :
  load_and_report fs model_name p results = (out, Ok results') ->
  results' = results \/
  exists info, written_entry info /\ results' = dict_set model_name info results.
Proof.
  intros H.
  destruct (joblib_load fs p) as [v | e] eqn:Hload.
  2:{ rewrite (load_fails _ _ _ _ _ Hload) in H. discriminate. }
  destruct v as [| | | | | | items];
    try (rewrite (load_not_a_dict _ _ _ _ _ Hload) in H by discriminate;
         injection H as _ <-; now left).
  destruct (scan items scan_init) as [st | e] eqn:Hscan.
  2:{ rewrite (scan_fails _ _ _ _ _ Hload _ Hscan) in H. discriminate. }
  destruct (scan_state_ok _ _ _ scan_init_ok Hscan)
    as [_ [[_ Hnone] | (name & m & v & Hbest & Hinfo & _)]].
  { rewrite (no_best_model _ _ _ _ _ Hload _ Hscan Hnone) in H. discriminate. }
  right. exists (model_info st).
  unfold load_and_report in H.
  rewrite Hload, bind_lift_ok, bind_print, Hscan, bind_lift_ok, Hbest, Hinfo in H.
  injection H as _ H.
  destruct (print_metrics (Some name) (make_info name m)) as [o [[] | e]] eqn:Hprint;
    simpl in H; [| discriminate].
  injection H as <-. rewrite Hinfo. split; [| reflexivity].
  exists name, m. split; [reflexivity |].
  eapply print_metrics_ok_inv; eauto.
Qed.

Lemma process_dir_written fs model_dir results out results' :
  process_dir fs model_dir results = (out, Ok results') ->
  results' = results \/
  exists info,
    written_entry info /\ results' = dict_set (display_name model_dir) info results.
Proof.
  intros H.
  destruct (path_exists fs model_dir) eqn:Hdir.
  2:{ rewrite (process_dir_absent _ _ _ Hdir) in H. injection H as _ <-. now left. }
  destruct (listdir fs model_dir) as [files | e] eqn:Hlist.
  2:{ rewrite (process_dir_unlistable _ _ _ _ Hdir Hlist) in H. discriminate. }
  destruct (find_results_file model_dir files) as [p |] eqn:Hfind.
  2:{ rewrite (process_dir_no_artifact _ _ _ _ Hdir Hlist Hfind) in H.
      injection H as _ <-. now left. }
  destruct (path_exists fs p) eqn:Hp.
  2:{ rewrite (process_dir_artifact_gone _ _ _ _ Hdir Hlist _ Hfind Hp) in H.
      injection H as _ <-. now left. }
  destruct (load_and_report fs (display_name model_dir) p results)
    as [o [r | e]] eqn:Hrep.
  - rewrite (process_dir_reported _ _ _ _ Hdir Hlist _ Hfind Hp _ _ Hrep) in H.
    injection H as _ <-. eapply load_and_report_written; eauto.
  - rewrite (process_dir_caught _ _ _ _ Hdir Hlist _ Hfind Hp _ _ Hrep) in H.
    injection H as _ <-. now left.
Qed.

Lemma process_dirs_written fs dirs :
  forall results out results',
    Forall (fun entry => written_entry (snd entry)) results ->
    process_dirs fs dirs results = (out, Ok results') ->
    Forall (fun entry => written_entry (snd entry)) results'.
Proof.
  induction dirs as [| d rest IH]; intros results out results' Hall H.
  - injection H as _ <-. exact Hall.
  - apply process_dirs_cons_inv in H as (o1 & r1 & o2 & H1 & H2 & _).
    eapply IH; [| exact H2].
    destruct (process_dir_written _ _ _ _ _ H1) as [-> | (info & Hinfo & ->)];
      [exact Hall |].
    apply dict_set_Forall; assumption.
Qed.

(** The summary of a run that returns: distinct keys, written entries. *)
Lemma returned_summary_shape fs out summary :
  check_model_performance fs = (out, Ok summary) ->
  NoDup (keys summary) /\ Forall (fun entry => written_entry (snd entry)) summary.
Proof.
  intros H. apply check_returns_inv in H as (o & H & _). split.
  - destruct (process_dirs_keys fs model_dirs model_dirs_distinct [] _ _
                (fun _ _ Hin => Hin) H) as [f Hf].
    change (keys summary = filter f display_names) in Hf.
    rewrite Hf. apply NoDup_filter, model_dirs_distinct.
  - eapply process_dirs_written; [constructor | exact H].
Qed.

Lemma summary_value_keys summary :
  keys (map (fun entry : string * dict => (fst entry, VDict (snd entry))) summary)
  = keys summary.
Proof. unfold keys. rewrite map_map. reflexivity. Qed.

(** Reading back what was written gives the summary again, value for
    value and type for type. *)
Lemma summary_reads_back summary :
  NoDup (keys summary) ->
  Forall (fun entry => written_entry (snd entry)) summary ->
  value_of (json_of (summary_value summary)) = summary_value summary.
Proof.
  intros Hnd Hall. unfold summary_value. apply dict_round_trip.
  - now rewrite summary_value_keys.
  - apply Forall_map. eapply Forall_impl; [| exact Hall].
    intros [k info] Hinfo. cbn [fst snd] in *.
    destruct (written_entry_shape _ Hinfo) as [Hkeys Hscalars].
    apply dict_round_trip; [exact Hkeys |].
    eapply Forall_impl; [| exact Hscalars].
    intros kv. apply scalar_round_trip.
Qed.

(** The summary equals itself under Python's [==] exactly when it holds no
    NaN. *)
Lemma summary_eq_self summary :
  NoDup (keys summary) ->
  Forall (fun entry => written_entry (snd entry)) summary ->
  py_eq (summary_value summary) (summary_value summary) = nan_free summary.
Proof.
  intros Hnd Hall. unfold summary_value.
  rewrite dict_eq_self by now rewrite summary_value_keys.
  unfold nan_free. rewrite forallb_of_map. apply forallb_ext_in.
  intros [k info] Hin. cbn [fst snd].
  rewrite Forall_forall in Hall. specialize (Hall _ Hin). cbn [snd] in Hall.
  destruct (written_entry_shape _ Hall) as [Hkeys Hscalars].
  rewrite (dict_eq_self _ Hkeys). apply forallb_ext_in.
  intros kv Hkv. rewrite Forall_forall in Hscalars.
  apply scalar_eq_self. now apply Hscalars.
Qed.

(** * The claims *)

(** ** C1: best-model selection *)

(** C1, as stated, fails when no [f1_score] is above 0: the mapping has an
    entry with an [f1_score] field, yet nothing is selected and the summary
    stays empty. *)
Lemma zero_f1_is_not_selected :
  let items := [("A", VDict [("f1_score", VInt 0); ("accuracy", VFloat (Fin (9 # 10)))])] in
  (exists name m, In (name, VDict m) items /\ dict_has "f1_score" m = true) /\
  check_model_performance (k2_host (Ok (VDict items)))
  = ([ Print (Header "K2"); Print (BestModel None);
       Print (ErrorLoading k2_artifact (KeyError "accuracy"));
       Print (FilesIn "models/k2");
       Print (FileItem "best_model.joblib");
       Print (FileItem "k2_model_results.joblib");
       Print (FileItem "scaler.joblib");
       Dump summary_file []; Print SummarySaved ],
     Ok []).
Proof.
  split; [| reflexivity].
  eexists _, _. split; [left; reflexivity | reflexivity].
Qed.

(** C1 (amended): for a results mapping whose metrics hold numbers that
    lines 52-57 can format (an int must fit a float) and in which some
    entry has an [f1_score] above 0, the directory's iteration
    selects the entry with the maximum [f1_score] in iteration order, the
    first one on ties, prints it as best model, and writes its name (as
    [model_name]) and its [f1_score] to the summary under the directory's
    name; that entry is in the summary the run returns. *)
Theorem best_model_is_first_maximum fs model_dir files p items results :
  path_exists fs model_dir = true ->
  listdir fs model_dir = Ok files ->
  find_results_file model_dir files = Some p ->
  path_exists fs p = true ->
  joblib_load fs p = Ok (VDict items) ->
  printable_metrics items = true ->
  (exists name m v q,
      In (name, VDict m) items /\ dict_get "f1_score" m = Some v /\
      as_num v = Some (Fin q) /\ (0 < q)%Q) ->
  exists name m q,
    first_maximum items name m q /\ (0 < q)%Q /\
    process_dir fs model_dir results
    = (Print (Header (upper (display_name model_dir)))
         :: metric_lines name m ++ listing model_dir files,
       Ok (dict_set (display_name model_dir) (make_info name m) results)) /\
    dict_get "model_name" (make_info name m) = Some (VStr name) /\
    (exists v, dict_get "f1_score" m = Some v /\ as_num v = Some (Fin q) /\
               dict_get "f1_score" (make_info name m) = Some v) /\
    (In model_dir model_dirs ->
     forall out summary,
       check_model_performance fs = (out, Ok summary) ->
       dict_get (display_name model_dir) summary = Some (make_info name m)).
Proof.
  intros Hdir Hlist Hfind Hp Hload Hnum (name0 & m0 & v0 & q0 & Hin & Hf0 & Hv0 & Hq0).
  destruct (first_maximum_exists items (printable_metrics_f1 _ Hnum) 0%Q)
    as [Hall | (name & m & q & Hmax & Hq)].
  { rewrite Forall_forall in Hall. specialize (Hall _ Hin).
    unfold f1_le, f1_field in Hall. simpl in Hall. rewrite Hf0 in Hall.
    destruct Hall as (x & Hx & Hle). rewrite Hv0 in Hx. injection Hx as <-.
    exfalso. exact (Qlt_not_le _ _ Hq0 Hle). }
  destruct (first_maximum_In _ _ _ _ Hmax) as [Hin' Hhas].
  pose proof (printable_metrics_entry _ _ _ Hnum Hin' Hhas) as Hfields.
  assert (forall r, process_dir fs model_dir r
                    = (Print (Header (upper (display_name model_dir)))
                         :: metric_lines name m ++ listing model_dir files,
                       Ok (dict_set (display_name model_dir) (make_info name m) r)))
    as Hrec by (intros r; eapply process_dir_records; eauto).
  exists name, m, q. repeat split; auto.
  - destruct Hmax as (pre & post & v & _ & Hf & Hv & _).
    exists v. repeat split; auto.
    simpl. unfold dict_get_default. now rewrite Hf.
  - intros Hconf out summary Hrun.
    eapply written_dir_has_entry; eauto.
Qed.

Lemma best_model_is_first_maximum_witness :
  exists name m q,
    first_maximum two_models name m q /\ (0 < q)%Q /\
    process_dir (k2_host (Ok (VDict two_models))) "models/k2" []
    = (Print (Header (upper (display_name "models/k2")))
         :: metric_lines name m ++ listing "models/k2" k2_files,
       Ok (dict_set (display_name "models/k2") (make_info name m) [])) /\
    dict_get "model_name" (make_info name m) = Some (VStr name) /\
    (exists v, dict_get "f1_score" m = Some v /\ as_num v = Some (Fin q) /\
               dict_get "f1_score" (make_info name m) = Some v) /\
    (In "models/k2" model_dirs ->
     forall out summary,
       check_model_performance (k2_host (Ok (VDict two_models))) = (out, Ok summary) ->
       dict_get (display_name "models/k2") summary = Some (make_info name m)).
Proof.
  apply (best_model_is_first_maximum
           (k2_host (Ok (VDict two_models))) "models/k2" k2_files k2_artifact
           two_models []); try reflexivity.
  exists "A", [("f1_score", VFloat (Fin (8 # 10))); ("accuracy", VFloat (Fin (9 # 10)))],
         (VFloat (Fin (8 # 10))), (8 # 10).
  split; [now left | repeat split].
Defined.

(** ** C2: a mapping without any [f1_score] *)

(** C2: on a mapping in which no entry has an [f1_score] field, the run
    prints "Best Model: None" and then an error line for the artifact:
    [model_info] is still empty at line 52, and the [KeyError] lands in the
    handler meant for load failures.  No summary entry is written and
    nothing is raised, but the directory is not passed over in silence. *)
Theorem no_f1_field_reports_key_error :
  check_model_performance
    (k2_host (Ok (VDict [("A", VDict [("accuracy", VFloat (Fin (9 # 10)))])])))
  = ([ Print (Header "K2"); Print (BestModel None);
       Print (ErrorLoading k2_artifact (KeyError "accuracy"));
       Print (FilesIn "models/k2");
       Print (FileItem "best_model.joblib");
       Print (FileItem "k2_model_results.joblib");
       Print (FileItem "scaler.joblib");
       Dump summary_file []; Print SummarySaved ],
     Ok []).
Proof. reflexivity. Qed.

(** ** C3: an artifact that fails to load *)

(** C3: when [joblib.load] raises, the directory's iteration prints the
    error line with the file path and the exception, then the listing, and
    returns with the summary unchanged; the loop goes on with the remaining
    directories, and the returned summary has no key for the directory. *)
Theorem load_error_is_caught fs model_dir files p e results :
  path_exists fs model_dir = true ->
  listdir fs model_dir = Ok files ->
  find_results_file model_dir files = Some p ->
  path_exists fs p = true ->
  joblib_load fs p = Raise e ->
  process_dir fs model_dir results
  = (Print (ErrorLoading p e) :: listing model_dir files, Ok results) /\
  (forall rest,
      process_dirs fs (model_dir :: rest) results
      = (Print (ErrorLoading p e) :: listing model_dir files
           ++ fst (process_dirs fs rest results),
         snd (process_dirs fs rest results))) /\
  (In model_dir model_dirs ->
   forall out summary,
     check_model_performance fs = (out, Ok summary) ->
     dict_get (display_name model_dir) summary = None).
Proof.
  intros Hdir Hlist Hfind Hp Hload.
  assert (forall r, process_dir fs model_dir r
                    = (Print (ErrorLoading p e) :: listing model_dir files, Ok r))
    as Hstep.
  { intros r.
    exact (process_dir_caught _ _ _ _ Hdir Hlist _ Hfind Hp _ _
             (load_fails _ _ _ _ _ Hload)). }
  split; [apply Hstep | split].
  - intros rest. cbn [process_dirs].
    apply (bind_ok _ _ _ _ (Hstep results)).
  - intros Hconf out summary Hrun.
    eapply untouched_dir_has_no_entry; eauto.
Qed.

Lemma load_error_is_caught_witness :
  process_dir (k2_host (Raise (LoadError "invalid load key"))) "models/k2" []
  = (Print (ErrorLoading k2_artifact (LoadError "invalid load key"))
       :: listing "models/k2" k2_files, Ok []).
Proof.
  apply (load_error_is_caught
           (k2_host (Raise (LoadError "invalid load key")))
           "models/k2" k2_files k2_artifact (LoadError "invalid load key") []);
    reflexivity.
Defined.

(** ** C4: the summary file read back *)

(** C4, as stated, fails when a recorded metric is NaN: the run below
    selects A, records its NaN accuracy and dumps it, and the value read
    back from the document differs from the returned summary under
    Python's [==], NaN being equal to nothing. *)
Lemma nan_metric_does_not_read_back :
  let summary :=
    [("k2", make_info "A" [("f1_score", VFloat (Fin (9 # 10)));
                           ("accuracy", VFloat NaN)])] in
  check_model_performance
    (k2_host (Ok (VDict [("A", VDict [("f1_score", VFloat (Fin (9 # 10)));
                                      ("accuracy", VFloat NaN)])])))
  = ([ Print (Header "K2"); Print (BestModel (Some "A"));
       Print (Metric "Accuracy" NaN); Print (Metric "Precision" (Fin 0));
       Print (Metric "Recall" (Fin 0)); Print (Metric "F1-Score" (Fin (9 # 10)));
       Print (Metric "ROC AUC" (Fin 0)); Print (CvMean (Fin 0) (Fin 0));
       Print (FilesIn "models/k2");
       Print (FileItem "best_model.joblib");
       Print (FileItem "k2_model_results.joblib");
       Print (FileItem "scaler.joblib");
       Dump summary_file summary; Print SummarySaved ],
     Ok summary) /\
  py_eq (value_of (json_of (summary_value summary))) (summary_value summary)
  = false.
Proof. split; reflexivity. Qed.

(** C4 (amended): for a run that returns with no NaN among the recorded
    metrics, the document dumped to the summary file reads back as the
    returned summary: the same keys in the same order, the same values,
    ints as ints and floats as floats, and equal to it under Python's
    [==]. *)
Theorem summary_file_reads_back fs out summary :
  check_model_performance fs = (out, Ok summary) ->
  nan_free summary = true ->
  In (Dump summary_file summary) out /\
  value_of (json_of (summary_value summary)) = summary_value summary /\
  py_eq (value_of (json_of (summary_value summary))) (summary_value summary)
  = true.
Proof.
  intros Hrun Hnan.
  destruct (returned_summary_shape _ _ _ Hrun) as [Hkeys Hentries].
  split; [| split].
  - apply check_returns_inv in Hrun as (o & _ & ->).
    apply in_or_app. right. now left.
  - now apply summary_reads_back.
  - rewrite (summary_reads_back _ Hkeys Hentries).
    now rewrite (summary_eq_self _ Hkeys Hentries).
Qed.

Lemma summary_file_reads_back_witness :
  value_of (json_of (summary_value
                       [("k2", make_info "B" [("f1_score", VFloat (Fin (95 # 100)));
                                              ("accuracy", VFloat (Fin (85 # 100)))])]))
  = summary_value
      [("k2", make_info "B" [("f1_score", VFloat (Fin (95 # 100)));
                             ("accuracy", VFloat (Fin (85 # 100)))])].
Proof.
  apply (summary_file_reads_back (k2_host (Ok (VDict two_models))) _ _
           two_models_run).
  reflexivity.
Defined.

(** ** C5: defaults of the optional fields *)

(** C5: when the selected best sub-model's metrics lack one of accuracy,
    precision, recall, roc_auc, cv_mean, cv_std, and the fields they have
    are numbers lines 52-57 can format, so that an entry is written, the
    summary entry written for the directory holds that field with the
    number 0. *)
Theorem missing_fields_default_to_zero
    fs model_dir files p items results name m q k :
  path_exists fs model_dir = true ->
  listdir fs model_dir = Ok files ->
  find_results_file model_dir files = Some p ->
  path_exists fs p = true ->
  joblib_load fs p = Ok (VDict items) ->
  first_maximum items name m q -> (0 < q)%Q ->
  printable_fields m = true ->
  In k optional_fields ->
  dict_get k m = None ->
  exists out summary info,
    process_dir fs model_dir results = (out, Ok summary) /\
    dict_get (display_name model_dir) summary = Some info /\
    dict_get k info = Some (VInt 0).
Proof.
  intros Hdir Hlist Hfind Hp Hload Hmax Hq Hnum Hk Hmiss.
  eexists _, _, (make_info name m). split; [| split].
  - eapply process_dir_records; eauto.
  - apply dict_get_set_same.
  - rewrite make_info_field.
    + unfold dict_get_default. now rewrite Hmiss.
    + unfold optional_fields in Hk. unfold metric_keys. simpl in *. tauto.
Qed.

Lemma two_models_first_maximum :
  first_maximum two_models "B"
    [("f1_score", VFloat (Fin (95 # 100))); ("accuracy", VFloat (Fin (85 # 100)))] (95 # 100).
Proof.
  exists [("A", VDict [("f1_score", VFloat (Fin (8 # 10))); ("accuracy", VFloat (Fin (9 # 10)))])],
         [], (VFloat (Fin (95 # 100))).
  repeat split; repeat constructor.
  exists (Fin (8 # 10)). split; reflexivity.
Qed.

Lemma missing_fields_default_to_zero_witness :
  exists out summary info,
    process_dir (k2_host (Ok (VDict two_models))) "models/k2" [] = (out, Ok summary) /\
    dict_get (display_name "models/k2") summary = Some info /\
    dict_get "roc_auc" info = Some (VInt 0).
Proof.
  apply (missing_fields_default_to_zero
           (k2_host (Ok (VDict two_models))) "models/k2" k2_files k2_artifact
           two_models [] "B"
           [("f1_score", VFloat (Fin (95 # 100))); ("accuracy", VFloat (Fin (85 # 100)))]
           (95 # 100) "roc_auc");
    try reflexivity.
  - exact two_models_first_maximum.
  - unfold optional_fields. simpl. tauto.
Defined.

(** ** C6: an artifact that is not a mapping *)

(** C6: when the artifact loads to something that is not a dict, the
    directory's iteration prints the header and the listing, raises
    nothing and leaves the summary unchanged; the returned summary has no
    key for the directory. *)
Theorem non_mapping_is_skipped fs model_dir files p v results :
  path_exists fs model_dir = true ->
  listdir fs model_dir = Ok files ->
  find_results_file model_dir files = Some p ->
  path_exists fs p = true ->
  joblib_load fs p = Ok v ->
  (forall items, v <> VDict items) ->
  process_dir fs model_dir results
  = (Print (Header (upper (display_name model_dir))) :: listing model_dir files,
     Ok results) /\
  (In model_dir model_dirs ->
   forall out summary,
     check_model_performance fs = (out, Ok summary) ->
     dict_get (display_name model_dir) summary = None).
Proof.
  intros Hdir Hlist Hfind Hp Hload Hv.
  assert (forall r, process_dir fs model_dir r
                    = (Print (Header (upper (display_name model_dir)))
                         :: listing model_dir files, Ok r)) as Hstep.
  { intros r.
    exact (process_dir_reported _ _ _ _ Hdir Hlist _ Hfind Hp _ _
             (load_not_a_dict _ _ _ _ _ Hload Hv)). }
  split; [apply Hstep |].
  intros Hconf out summary Hrun.
  eapply untouched_dir_has_no_entry; eauto.
Qed.

Lemma non_mapping_is_skipped_witness :
  process_dir (k2_host (Ok (VList [VInt 1; VInt 2]))) "models/k2" []
  = (Print (Header (upper (display_name "models/k2"))) :: listing "models/k2" k2_files,
     Ok []).
Proof.
  apply (non_mapping_is_skipped
           (k2_host (Ok (VList [VInt 1; VInt 2]))) "models/k2" k2_files k2_artifact
           (VList [VInt 1; VInt 2]) []);
    try reflexivity.
  intros items. discriminate.
Defined.

(** ** C7: a configured directory that does not exist *)

Lemma header_names_distinct d d' :
  In d model_dirs -> In d' model_dirs ->
  upper (display_name d') = upper (display_name d) -> d' = d.
Proof.
  unfold model_dirs. simpl.
  intros [<- | [<- | [<- | []]]] [<- | [<- | [<- | []]]];
    vm_compute; intros H; try reflexivity; discriminate H.
Qed.

(** Every event of a run comes from an existing configured directory, or
    is the final dump or confirmation line. *)
Lemma check_events fs :
  Forall (fun ev =>
            (exists model_dir,
                In model_dir model_dirs /\ path_exists fs model_dir = true /\
                dir_event model_dir ev) \/
            (exists obj, ev = Dump summary_file obj) \/ ev = Print SummarySaved)
         (fst (check_model_performance fs)).
Proof.
  unfold check_model_performance. apply bind_events.
  - eapply Forall_impl; [| apply process_dirs_events]. intros ev H. now left.
  - intros r. cbn.
    constructor; [right; left; now exists r |].
    constructor; [right; right; reflexivity | constructor].
Qed.

(** C7: a configured directory that does not exist prints nothing and
    leaves the summary alone; the run's output has neither its header nor
    its listing header, and the returned summary has no key for it. *)
Theorem absent_directory_is_skipped fs model_dir :
  In model_dir model_dirs ->
  path_exists fs model_dir = false ->
  (forall results, process_dir fs model_dir results = ([], Ok results)) /\
  ~ In (Print (Header (upper (display_name model_dir))))
       (fst (check_model_performance fs)) /\
  ~ In (Print (FilesIn model_dir)) (fst (check_model_performance fs)) /\
  (forall out summary,
      check_model_performance fs = (out, Ok summary) ->
      dict_get (display_name model_dir) summary = None).
Proof.
  intros Hconf Habsent.
  pose proof (check_events fs) as Hev. rewrite Forall_forall in Hev.
  split; [| split; [| split]].
  - intros results. now apply process_dir_absent.
  - intros Hin. destruct (Hev _ Hin) as [(d & Hd & Hex & [Hrep | Hls]) | [[obj H] | H]];
      try discriminate H; simpl in *; try contradiction.
    apply (header_names_distinct _ _ Hd Hconf) in Hrep. congruence.
  - intros Hin. destruct (Hev _ Hin) as [(d & Hd & Hex & [Hrep | Hls]) | [[obj H] | H]];
      try discriminate H; simpl in *; try contradiction.
    congruence.
  - intros out summary Hrun.
    eapply untouched_dir_has_no_entry; eauto.
    intros results. exists []. now apply process_dir_absent.
Qed.

Lemma absent_directory_is_skipped_witness :
  process_dir (k2_host (Ok (VDict two_models))) "models/tess" [] = ([], Ok []) /\
  ~ In (Print (Header "TESS"))
       (fst (check_model_performance (k2_host (Ok (VDict two_models))))) /\
  dict_get "tess" [("k2", make_info "B" [("f1_score", VFloat (Fin (95 # 100)));
                                         ("accuracy", VFloat (Fin (85 # 100)))])] = None.
Proof.
  assert (In "models/tess" model_dirs) as Hconf
    by (unfold model_dirs; simpl; tauto).
  destruct (absent_directory_is_skipped
              (k2_host (Ok (VDict two_models))) "models/tess" Hconf eq_refl)
    as (Hstep & Hheader & _ & Hkey).
  split; [apply Hstep | split; [exact Hheader |]].
  exact (Hkey _ _ two_models_run).
Defined.

(** ** C8: the directory listing *)



(** ** C9: recorded scores are positive *)

Lemma from_positive_f1_positive info : from_positive_f1 info -> positive_f1 info.
Proof.
  intros (name & m & v & q & -> & Hf & Hv & Hq).
  exists v, q. repeat split; auto.
  simpl. unfold dict_get_default. now rewrite Hf.
Qed.

(** C9: every entry of the returned summary has an [f1_score] that is a
    number above 0; and a directory whose mapping has no [f1_score] above 0
    leaves the summary as it was. *)
Theorem recorded_f1_is_positive fs :
  (forall out summary key info,
      check_model_performance fs = (out, Ok summary) ->
      dict_get key summary = Some info ->
      positive_f1 info) /\
  (forall model_dir files p items results,
      path_exists fs model_dir = true ->
      listdir fs model_dir = Ok files ->
      find_results_file model_dir files = Some p ->
      path_exists fs p = true ->
      joblib_load fs p = Ok (VDict items) ->
      Forall (f1_le 0) items ->
      exists out, process_dir fs model_dir results = (out, Ok results)).
Proof.
  split.
  - intros out summary key info Hrun Hget.
    apply returned_reaches in Hrun.
    pose proof (reaches_Forall fs (fun entry => positive_f1 (snd entry))
                  (fun d i _ Hi => from_positive_f1_positive i Hi) _ _ Hrun) as Hall.
    rewrite Forall_forall in Hall.
    exact (Hall _ (dict_get_In _ _ _ Hget)).
  - intros model_dir files p items results Hdir Hlist Hfind Hp Hload Hle.
    eexists. eapply no_best_model_caught; eauto.
Qed.

Lemma recorded_f1_is_positive_witness :
  positive_f1 (make_info "B" [("f1_score", VFloat (Fin (95 # 100)));
                              ("accuracy", VFloat (Fin (85 # 100)))]).
Proof.
  apply (proj1 (recorded_f1_is_positive (k2_host (Ok (VDict two_models))))
               _ _ "k2" _ two_models_run).
  reflexivity.
Defined.

(** ** C10: the shape of the summary *)

(** C10: at every point of the run, and in the summary it returns, every
    key is one of k2, kepler, tess and every value has exactly the keys
    model_name, accuracy, precision, recall, f1_score, roc_auc, cv_mean,
    cv_std. *)
Theorem summary_shape_invariant fs :
  (forall dirs results, reaches fs dirs results -> summary_ok results) /\
  (forall out summary,
      check_model_performance fs = (out, Ok summary) -> summary_ok summary).
Proof.
  assert (forall dirs results, reaches fs dirs results -> summary_ok results) as Hinv.
  { apply reaches_Forall. intros d info Hd (name & m & _ & _ & -> & _).
    split; [| reflexivity].
    unfold model_dirs in Hd. simpl in Hd.
    destruct Hd as [<- | [<- | [<- | []]]]; vm_compute; tauto. }
  split; [exact Hinv |].
  intros out summary Hrun. eapply Hinv, returned_reaches, Hrun.
Qed.

Lemma summary_shape_invariant_witness :
  summary_ok [("k2", make_info "B" [("f1_score", VFloat (Fin (95 # 100)));
                                    ("accuracy", VFloat (Fin (85 # 100)))])].
Proof.
  exact (proj2 (summary_shape_invariant (k2_host (Ok (VDict two_models))))
               _ _ two_models_run).
Defined.

(** * Further properties of the run *)

(** ** The results artifact of a directory (lines 19-25) *)

(** X1: the results artifact is the first listed file, in the order the
    listing call gave, whose name contains "model_results" and ends with
    ".joblib", joined to the directory; there is none exactly when no
    listed file passes the test. *)
Theorem find_results_file_first_match model_dir files :
  (forall p,
      find_results_file model_dir files = Some p <->
      exists pre file post,
        files = pre ++ file :: post /\
        Forall (fun f => is_results_file f = false) pre /\
        is_results_file file = true /\
        p = path_join model_dir file) /\
  (find_results_file model_dir files = None <->
   Forall (fun f => is_results_file f = false) files).
Proof.
  induction files as [| f rest [IHsome IHnone]]; simpl.
  - split; [intros p; split | split]; try discriminate; auto.
    intros (pre & file & post & H & _). now destruct pre.
  - fold (is_results_file f). destruct (is_results_file f) eqn:Hf.
    + split; [intros p; split | split]; try discriminate.
      * intros [= <-]. exists [], f, rest. auto.
      * intros (pre & file & post & H & Hpre & Hfile & ->).
        destruct pre as [| f' pre]; simpl in H; injection H as <- _; [reflexivity |].
        inversion Hpre; congruence.
      * intros H. inversion H; congruence.
    + split; [intros p; split | split].
      * intros H. apply IHsome in H as (pre & file & post & -> & Hpre & Hfile & ->).
        exists (f :: pre), file, post. auto.
      * intros (pre & file & post & H & Hpre & Hfile & ->).
        destruct pre as [| f' pre]; simpl in H; injection H as <- H; [congruence |].
        apply IHsome. inversion Hpre; subst. exists pre, file, post. auto.
      * intros H. constructor; [exact Hf | now apply IHnone].
      * intros H. inversion H; subst. now apply IHnone.
Qed.

Lemma find_results_file_first_match_witness :
  find_results_file "models/k2" k2_files = Some k2_artifact.
Proof.
  apply (proj1 (find_results_file_first_match "models/k2" k2_files)).
  exists ["scaler.joblib"], "k2_model_results.joblib", ["best_model.joblib"].
  repeat split. repeat constructor.
Defined.

(** X2: a directory that exists and lists no file passing the test of
    line 21 (an empty directory included) gets no report section: only its
    listing is printed, and the summary is left as it was. *)
Theorem no_artifact_only_listing fs model_dir files results :
  path_exists fs model_dir = true ->
  listdir fs model_dir = Ok files ->
  Forall (fun f => is_results_file f = false) files ->
  process_dir fs model_dir results = (listing model_dir files, Ok results).
Proof.
  intros Hdir Hlist Hnone.
  apply process_dir_no_artifact; auto.
  clear Hlist. induction Hnone as [| f rest Hf _ IH]; simpl; [reflexivity |].
  unfold is_results_file in Hf. now rewrite Hf.
Qed.

Lemma no_artifact_only_listing_witness :
  process_dir (table_fs [("models/tess", ["readme.txt"; "model_results.txt"])] [])
              "models/tess" []
  = (listing "models/tess" ["readme.txt"; "model_results.txt"], Ok []).
Proof.
  apply (no_artifact_only_listing
           (table_fs [("models/tess", ["readme.txt"; "model_results.txt"])] [])
           "models/tess" ["readme.txt"; "model_results.txt"] []);
    try reflexivity.
  repeat constructor.
Defined.

(** X3: when the listed artifact fails [os.path.exists] at line 25 (a
    dangling link, say), no load is attempted: whatever loading it would
    give, only the listing is printed and the summary is left as it was. *)
Theorem vanished_artifact_is_not_loaded fs model_dir files p results :
  path_exists fs model_dir = true ->
  listdir fs model_dir = Ok files ->
  find_results_file model_dir files = Some p ->
  path_exists fs p = false ->
  process_dir fs model_dir results = (listing model_dir files, Ok results) /\
  forall load',
    process_dir {| path_exists := path_exists fs; listdir := listdir fs;
                   joblib_load := load' |} model_dir results
    = process_dir fs model_dir results.
Proof.
  intros Hdir Hlist Hfind Hp. split.
  - eapply process_dir_artifact_gone; eauto.
  - intros load'.
    rewrite (process_dir_artifact_gone fs _ _ _ Hdir Hlist _ Hfind Hp).
    eapply process_dir_artifact_gone; simpl; eauto.
Qed.

Lemma vanished_artifact_is_not_loaded_witness :
  process_dir (table_fs [("models/k2", k2_files)] []) "models/k2" []
  = (listing "models/k2" k2_files, Ok []).
Proof.
  apply (vanished_artifact_is_not_loaded
           (table_fs [("models/k2", k2_files)] []) "models/k2" k2_files k2_artifact []);
    reflexivity.
Defined.

(** ** How a run can end (lines 11-75) *)

Lemma process_dir_raise_inv fs model_dir results out e :
  process_dir fs model_dir results = (out, Raise e) ->
  path_exists fs model_dir = true /\ listdir fs model_dir = Raise e.
Proof.
  intros H.
  destruct (path_exists fs model_dir) eqn:Hdir.
  2:{ rewrite (process_dir_absent _ _ _ Hdir) in H. discriminate. }
  destruct (listdir fs model_dir) as [files | e'] eqn:Hlist.
  - destruct (process_dir_returns _ _ _ results Hdir Hlist) as (b & r & Heq & _).
    rewrite Heq in H. discriminate.
  - rewrite (process_dir_unlistable _ _ _ _ Hdir Hlist) in H.
    injection H as _ <-. auto.
Qed.

Lemma process_dirs_raise_inv fs dirs :
  forall results out e,
    process_dirs fs dirs results = (out, Raise e) ->
    exists model_dir,
      In model_dir dirs /\ path_exists fs model_dir = true /\
      listdir fs model_dir = Raise e.
Proof.
  induction dirs as [| d rest IH]; intros results out e H; [discriminate |].
  cbn [process_dirs] in H.
  destruct (process_dir fs d results) as [o1 [r1 | e1]] eqn:Hstep.
  - rewrite (bind_ok _ _ _ _ eq_refl) in H.
    destruct (process_dirs fs rest r1) as [o2 [r2 | e2]] eqn:Hrest;
      simpl in H; [discriminate |].
    injection H as _ <-.
    destruct (IH _ _ _ Hrest) as (d' & Hin & Hd').
    exists d'. split; [now right | exact Hd'].
  - injection H as _ <-. apply process_dir_raise_inv in Hstep.
    exists d. split; [now left | exact Hstep].
Qed.

Lemma dir_event_not_final model_dir ev :
  dir_event model_dir ev -> is_dump ev = false /\ ev <> Print SummarySaved.
Proof.
  intros [H | H]; destruct ev as [[] |]; simpl in H; try contradiction;
    split; try reflexivity; discriminate.
Qed.

(** X4: the only exception that leaves [check_model_performance] is one
    raised by [os.listdir] on a configured directory that exists (writing
    the summary file is taken to succeed); a run that ends this way has
    written no summary file and printed no confirmation line. *)
Theorem only_listing_errors_escape fs out e :
  check_model_performance fs = (out, Raise e) ->
  (exists model_dir,
      In model_dir model_dirs /\ path_exists fs model_dir = true /\
      listdir fs model_dir = Raise e) /\
  Forall (fun ev => is_dump ev = false /\ ev <> Print SummarySaved) out.
Proof.
  unfold check_model_performance. intros H.
  pose proof (process_dirs_events fs model_dirs []) as Hev.
  destruct (process_dirs fs model_dirs []) as [o [r | e']] eqn:Hloop.
  - rewrite (bind_ok _ _ _ _ eq_refl) in H. discriminate.
  - injection H as <- <-. split.
    + eapply process_dirs_raise_inv; eauto.
    + eapply Forall_impl; [| exact Hev].
      intros ev (d & _ & _ & Hd). eapply dir_event_not_final; eauto.
Qed.

Lemma only_listing_errors_escape_witness :
  exists model_dir,
    In model_dir model_dirs /\
    path_exists (table_fs [("models/k2", k2_files)] [("models/tess", Ok VNone)])
                model_dir = true /\
    listdir (table_fs [("models/k2", k2_files)] [("models/tess", Ok VNone)])
            model_dir = Raise (OSError "models/tess").
Proof.
  apply (only_listing_errors_escape
           (table_fs [("models/k2", k2_files)] [("models/tess", Ok VNone)])
           (listing "models/k2" k2_files) (OSError "models/tess")).
  reflexivity.
Defined.

Lemma process_dirs_return fs dirs :
  (forall model_dir,
      In model_dir dirs -> path_exists fs model_dir = true ->
      exists files, listdir fs model_dir = Ok files) ->
  forall results, exists out results',
    process_dirs fs dirs results = (out, Ok results').
Proof.
  induction dirs as [| d rest IH]; intros Hls results.
  - exists [], results. reflexivity.
  - assert (exists o1 r1, process_dir fs d results = (o1, Ok r1)) as (o1 & r1 & Hstep).
    { destruct (path_exists fs d) eqn:Hd.
      - destruct (Hls d (or_introl eq_refl) Hd) as [files Hfiles].
        destruct (process_dir_returns _ _ _ results Hd Hfiles) as (b & r & Heq & _).
        eauto.
      - rewrite (process_dir_absent _ _ _ Hd). eauto. }
    destruct (IH (fun d' Hin => Hls d' (or_intror Hin)) r1) as (o2 & r2 & Hrest).
    exists (o1 ++ o2), r2. cbn [process_dirs].
    rewrite (bind_ok _ _ _ _ Hstep), Hrest. reflexivity.
Qed.

(** X5: when every configured directory that exists can be listed, the
    run returns a summary, whatever the artifacts are: unloadable, of the
    wrong shape, or with metrics that are not numbers. *)
Theorem run_returns_when_listable fs :
  (forall model_dir,
      In model_dir model_dirs -> path_exists fs model_dir = true ->
      exists files, listdir fs model_dir = Ok files) ->
  exists out summary, check_model_performance fs = (out, Ok summary).
Proof.
  intros Hls.
  destruct (process_dirs_return fs model_dirs Hls []) as (o & r & Hloop).
  exists (o ++ [Dump summary_file r; Print SummarySaved]), r.
  unfold check_model_performance. now rewrite (bind_ok _ _ _ _ Hloop).
Qed.

Lemma run_returns_when_listable_witness :
  exists out summary,
    check_model_performance
      (k2_host (Ok (VDict [("A", VDict [("f1_score", VStr "n/a")])])))
    = (out, Ok summary).
Proof.
  apply (run_returns_when_listable
           (k2_host (Ok (VDict [("A", VDict [("f1_score", VStr "n/a")])])))).
  intros model_dir Hin Hex. unfold model_dirs in Hin. simpl in Hin.
  destruct Hin as [<- | [<- | [<- | []]]]; try discriminate Hex.
  exists k2_files. reflexivity.
Defined.

(** X6: a run that returns writes the summary file exactly once, and what
    it dumps is the summary it returns; the dump and the confirmation line
    close the output. *)
Theorem dump_is_the_returned_summary fs out summary :
  check_model_performance fs = (out, Ok summary) ->
  filter is_dump out = [Dump summary_file summary] /\
  exists before,
    out = before ++ [Dump summary_file summary; Print SummarySaved] /\
    fst (process_dirs fs model_dirs []) = before.
Proof.
  intros H. apply check_returns_inv in H as (o & Hloop & ->).
  split; [| exists o; now rewrite Hloop].
  rewrite filter_app. simpl.
  pose proof (process_dirs_events fs model_dirs []) as Hev.
  rewrite Hloop in Hev. simpl in Hev.
  assert (filter is_dump o = []) as ->; [| reflexivity].
  clear Hloop. induction Hev as [| ev o' (d & _ & _ & Hd) _ IH]; [reflexivity |].
  simpl. destruct (dir_event_not_final _ _ Hd) as [-> _]. exact IH.
Qed.

Lemma dump_is_the_returned_summary_witness :
  filter is_dump (fst (check_model_performance (k2_host (Ok (VDict two_models)))))
  = [Dump summary_file
          [("k2", make_info "B" [("f1_score", VFloat (Fin (95 # 100)));
                                 ("accuracy", VFloat (Fin (85 # 100)))])]].
Proof.
  apply (dump_is_the_returned_summary (k2_host (Ok (VDict two_models))) _ _
           two_models_run).
Defined.

(** X7: when none of the configured directories exists, the run prints
    only the confirmation line, dumps the empty summary and returns it. *)
Theorem no_directory_empty_summary fs :
  (forall model_dir, In model_dir model_dirs -> path_exists fs model_dir = false) ->
  check_model_performance fs
  = ([Dump summary_file []; Print SummarySaved], Ok []).
Proof.
  intros Habsent. unfold check_model_performance.
  assert (forall dirs, incl dirs model_dirs ->
                       process_dirs fs dirs [] = ([], Ok [])) as Hloop.
  { induction dirs as [| d rest IH]; intros Hincl; [reflexivity |].
    cbn [process_dirs].
    rewrite (process_dir_absent _ _ _ (Habsent d (Hincl d (or_introl eq_refl)))).
    cbn [bind]. rewrite IH; [reflexivity |].
    intros x Hx. apply Hincl. now right. }
  rewrite (Hloop model_dirs (incl_refl _)). reflexivity.
Qed.

Lemma no_directory_empty_summary_witness :
  check_model_performance (table_fs [] [])
  = ([Dump summary_file []; Print SummarySaved], Ok []).
Proof.
  apply (no_directory_empty_summary (table_fs [] [])).
  intros model_dir _. reflexivity.
Defined.

(** ** The scan on its own (lines 32-49) *)

(** X8: entries whose value is not a dict, or is a dict without an
    [f1_score] field, play no part in the scan: dropping them from the
    mapping gives the same outcome from any state. *)
Theorem scan_ignores_other_entries items :
  forall st, scan items st = scan (filter is_candidate items) st.
Proof.
  induction items as [| [name v] rest IH]; intros st; [reflexivity |].
  unfold is_candidate, f1_field. cbn [filter snd].
  destruct v; try (simpl; apply IH).
  destruct (dict_get "f1_score" d) as [f1 |] eqn:Hf.
  - cbn [scan]. rewrite Hf.
    destruct (gt_num f1 (best_f1 st)) as [[|] | e]; auto.
  - simpl. rewrite Hf. apply IH.
Qed.

Lemma scan_upper_bound items :
  forall st st',
    scan items st = Ok st' ->
    (best_f1 st <= best_f1 st')%Q /\ Forall (f1_le (best_f1 st')) items.
Proof.
  induction items as [| [name v] rest IH]; intros st st' H.
  - injection H as <-. split; [apply Qle_refl | constructor].
  - assert (forall s, scan rest s = Ok st' -> f1_field (name, v) = None ->
                      (best_f1 s <= best_f1 st')%Q /\
                      Forall (f1_le (best_f1 st')) ((name, v) :: rest)) as Hskip.
    { intros s Hs Hnone. destruct (IH _ _ Hs) as [Hle Hall].
      split; [exact Hle |]. constructor; [| exact Hall].
      unfold f1_le. now rewrite Hnone. }
    destruct v; try (apply Hskip; [exact H | reflexivity]).
    simpl in H. destruct (dict_get "f1_score" d) as [f1 |] eqn:Hf.
    2:{ apply Hskip; [exact H |]. unfold f1_field. simpl. exact Hf. }
    unfold gt_num in H. destruct (as_num f1) as [[x |] |] eqn:Hx; [| | discriminate].
    2:{ destruct (IH _ _ H) as [Hle Hall].
        split; [exact Hle |]. constructor; [| exact Hall].
        unfold f1_le, f1_field. simpl. rewrite Hf. exists NaN. split; [exact Hx | exact I]. }
    destruct (Qle_bool x (best_f1 st)) eqn:E; simpl in H.
    + apply Qle_bool_iff in E. destruct (IH _ _ H) as [Hle Hall].
      split; [exact Hle |]. constructor; [| exact Hall].
      unfold f1_le, f1_field. simpl. rewrite Hf. exists (Fin x). split; [exact Hx |].
      simpl. eapply Qle_trans; eauto.
    + assert (best_f1 st < x)%Q as Hlt.
      { apply Qnot_le_lt. intros Hle. apply Qle_bool_iff in Hle. congruence. }
      destruct (IH _ _ H) as [Hle Hall]. simpl in Hle.
      split; [eapply Qle_trans; [apply Qlt_le_weak; exact Hlt | exact Hle] |].
      constructor; [| exact Hall].
      unfold f1_le, f1_field. simpl. rewrite Hf. exists (Fin x). split; [exact Hx |].
      exact Hle.
Qed.

Lemma scan_result_origin items :
  forall st st',
    scan items st = Ok st' ->
    st' = st \/
    exists name m v,
      best_model st' = Some name /\ model_info st' = make_info name m /\
      In (name, VDict m) items /\
      dict_get "f1_score" m = Some v /\ as_num v = Some (Fin (best_f1 st')) /\
      (best_f1 st < best_f1 st')%Q.
Proof.
  induction items as [| [name v] rest IH]; intros s s' Hs.
  - injection Hs as <-. now left.
  - assert (scan rest s = Ok s' ->
            s' = s \/
            exists name0 m v0,
              best_model s' = Some name0 /\ model_info s' = make_info name0 m /\
              In (name0, VDict m) ((name, v) :: rest) /\
              dict_get "f1_score" m = Some v0 /\ as_num v0 = Some (Fin (best_f1 s')) /\
              (best_f1 s < best_f1 s')%Q) as Hskip.
    { intros Hr. destruct (IH _ _ Hr) as [-> | (n & m & v0 & ? & ? & ? & ? & ? & ?)];
        [now left | right].
      exists n, m, v0. repeat split; auto. now right. }
    destruct v; try (apply Hskip; exact Hs).
    simpl in Hs. destruct (dict_get "f1_score" d) as [f1 |] eqn:Hf; [| now apply Hskip].
    unfold gt_num in Hs. destruct (as_num f1) as [[x |] |] eqn:Hx;
      [| now apply Hskip | discriminate].
    destruct (Qle_bool x (best_f1 s)) eqn:E; simpl in Hs; [now apply Hskip |].
    assert (best_f1 s < x)%Q as Hlt.
    { apply Qnot_le_lt. intros Hle. apply Qle_bool_iff in Hle. congruence. }
    right. destruct (IH _ _ Hs) as [-> | (n & m & v0 & ? & ? & ? & ? & ? & Hlt')].
    + exists name, d, f1. simpl. repeat split; auto.
    + exists n, m, v0. repeat split; auto; [now right |].
      simpl in Hlt'. eapply Qlt_trans; eauto.
Qed.

(** X9: whenever the scan completes, every [f1_score] in the mapping is a
    number and none is above the best score it ends with; that score is
    0 with nothing selected, or the positive score of the selected entry. *)
Theorem scan_ends_on_an_upper_bound items st :
  scan items scan_init = Ok st ->
  Forall (f1_le (best_f1 st)) items /\
  ((best_model st = None /\ model_info st = [] /\ best_f1 st = 0%Q) \/
   exists name m v,
     best_model st = Some name /\ model_info st = make_info name m /\
     In (name, VDict m) items /\
     dict_get "f1_score" m = Some v /\ as_num v = Some (Fin (best_f1 st)) /\
     (0 < best_f1 st)%Q).
Proof.
  intros H. split; [apply (scan_upper_bound _ _ _ H) |].
  destruct (scan_result_origin _ _ _ H) as [-> | (n & m & v0 & ? & ? & ? & ? & ? & ?)].
  - left. auto.
  - right. exists n, m, v0. repeat split; auto.
Qed.

Lemma scan_ends_on_an_upper_bound_witness :
  Forall (f1_le (95 # 100)) two_models.
Proof.
  apply (scan_ends_on_an_upper_bound two_models
           {| best_model := Some "B"; best_f1 := 95 # 100;
              model_info := make_info "B" [("f1_score", VFloat (Fin (95 # 100)));
                                           ("accuracy", VFloat (Fin (85 # 100)))] |}).
  reflexivity.
Defined.

(** ** Metrics that are not numbers (lines 37, 52-57, 61-62) *)

Lemma scan_numeric_prefix pre rest :
  numeric_f1 pre ->
  forall st, exists st', scan (pre ++ rest) st = scan rest st'.
Proof.
  induction 1 as [| [name v] pre Hentry _ IH]; intros st; [now exists st |].
  unfold f1_field in Hentry. simpl in Hentry.
  destruct v; try (simpl; apply IH).
  simpl. destruct (dict_get "f1_score" d) as [f1 |]; [| apply IH].
  unfold gt_num. destruct (as_num f1) as [[x |] |]; [| apply IH | contradiction].
  destruct (negb _); apply IH.
Qed.

(** X10: an [f1_score] that is not a number (a string, [None], a list)
    makes the comparison of line 37 raise; the handler reports it and the
    directory gets no summary entry, even when an earlier entry had a
    valid score.  Only the header and the error line are printed before
    the listing. *)
Theorem malformed_f1_discards_directory
    fs model_dir files p pre name m v post results :
  path_exists fs model_dir = true ->
  listdir fs model_dir = Ok files ->
  find_results_file model_dir files = Some p ->
  path_exists fs p = true ->
  joblib_load fs p = Ok (VDict (pre ++ (name, VDict m) :: post)) ->
  numeric_f1 pre ->
  dict_get "f1_score" m = Some v ->
  as_num v = None ->
  process_dir fs model_dir results
  = ([Print (Header (upper (display_name model_dir)));
      Print (ErrorLoading p (TypeError v))] ++ listing model_dir files,
     Ok results).
Proof.
  intros Hdir Hlist Hfind Hp Hload Hpre Hf Hv.
  assert (scan (pre ++ (name, VDict m) :: post) scan_init = Raise (TypeError v))
    as Hscan.
  { destruct (scan_numeric_prefix pre ((name, VDict m) :: post) Hpre scan_init)
      as [st' ->].
    simpl. rewrite Hf. unfold gt_num. now rewrite Hv. }
  rewrite (process_dir_caught _ _ _ _ Hdir Hlist _ Hfind Hp _ _
             (scan_fails _ _ _ _ _ Hload _ Hscan)).
  reflexivity.
Qed.

Lemma malformed_f1_discards_directory_witness :
  process_dir
    (k2_host (Ok (VDict ([("A", VDict [("f1_score", VFloat (Fin (8 # 10)))])]
                           ++ ("B", VDict [("f1_score", VStr "n/a")]) :: []))))
    "models/k2" []
  = ([Print (Header (upper (display_name "models/k2")));
      Print (ErrorLoading k2_artifact (TypeError (VStr "n/a")))]
       ++ listing "models/k2" k2_files,
     Ok []).
Proof.
  apply (malformed_f1_discards_directory
           (k2_host (Ok (VDict ([("A", VDict [("f1_score", VFloat (Fin (8 # 10)))])]
                                  ++ ("B", VDict [("f1_score", VStr "n/a")]) :: []))))
           "models/k2" k2_files k2_artifact
           [("A", VDict [("f1_score", VFloat (Fin (8 # 10)))])]
           "B" [("f1_score", VStr "n/a")] (VStr "n/a") [] []);
    try reflexivity.
  repeat constructor. discriminate.
Defined.

(** Lines 51-57 stop at the first field, in the order of [metric_keys],
    that cannot be formatted. *)
Lemma print_metrics_stops name m before k after e :
  metric_keys = before ++ k :: after ->
  Forall (fun k' => field_error k' m = None) before ->
  field_error k m = Some e ->
  print_metrics (Some name) (make_info name m)
  = (Print (BestModel (Some name)) :: metric_lines_for m before, Raise e).
Proof.
  intros Hsplit Hbefore Hk. rewrite print_metrics_fields.
  unfold metric_keys in Hsplit.
  repeat match goal with
    | H : _ :: _ = ?b ++ _ :: _ |- _ =>
        destruct b as [| ? ?]; simpl in H;
        [ injection H as ? ?; subst | injection H as ? H; subst ]
    | H : [] = ?b ++ _ :: _ |- _ => destruct b; discriminate H
    end;
    repeat match goal with
      | H : Forall _ (_ :: _) |- _ => inversion H; clear H; subst
      end;
    repeat match goal with
      | H : field_error _ m = _ |- _ => rewrite H; clear H
      end;
    reflexivity.
Qed.

(** X11: when a metric field of the selected best model cannot be
    formatted (not a number, or an int too large for a float), lines 52-57
    raise inside the [try] at the first such field, in the order accuracy,
    precision, recall, f1_score, roc_auc, cv_mean, cv_std.  The output is
    the header, "Best Model", the metric lines of the fields before it
    (the CV line needs both its fields), then the handler's error line
    with that field's exception, then the listing; no summary entry is
    written although a best model was found. *)
Theorem malformed_field_discards_directory
    fs model_dir files p items name m q results before k after e :
  path_exists fs model_dir = true ->
  listdir fs model_dir = Ok files ->
  find_results_file model_dir files = Some p ->
  path_exists fs p = true ->
  joblib_load fs p = Ok (VDict items) ->
  first_maximum items name m q -> (0 < q)%Q ->
  metric_keys = before ++ k :: after ->
  Forall (fun k' => field_error k' m = None) before ->
  field_error k m = Some e ->
  process_dir fs model_dir results
  = (Print (Header (upper (display_name model_dir)))
       :: Print (BestModel (Some name))
       :: metric_lines_for m before
       ++ Print (ErrorLoading p e) :: listing model_dir files,
     Ok results).
Proof.
  intros Hdir Hlist Hfind Hp Hload Hmax Hq Hsplit Hbefore Hk.
  pose proof (scan_first_maximum items name m q scan_init Hmax Hq) as Hscan.
  assert (load_and_report fs (display_name model_dir) p results
          = (Print (Header (upper (display_name model_dir)))
               :: Print (BestModel (Some name)) :: metric_lines_for m before,
             Raise e))
    as Hrep.
  { unfold load_and_report.
    rewrite Hload, bind_lift_ok, bind_print, Hscan, bind_lift_ok.
    cbn [best_model model_info].
    rewrite (print_metrics_stops _ _ _ _ _ _ Hsplit Hbefore Hk). reflexivity. }
  rewrite (process_dir_caught _ _ _ _ Hdir Hlist _ Hfind Hp _ _ Hrep).
  reflexivity.
Qed.

Lemma malformed_field_discards_directory_witness :
  process_dir
    (k2_host (Ok (VDict [("A", VDict [("f1_score", VFloat (Fin (9 # 10)));
                                      ("recall", VNone)])])))
    "models/k2" []
  = ([ Print (Header "K2"); Print (BestModel (Some "A"));
       Print (Metric "Accuracy" (Fin 0)); Print (Metric "Precision" (Fin 0));
       Print (ErrorLoading k2_artifact (TypeError VNone)) ]
       ++ listing "models/k2" k2_files,
     Ok []).
Proof.
  apply (malformed_field_discards_directory
           (k2_host (Ok (VDict [("A", VDict [("f1_score", VFloat (Fin (9 # 10)));
                                             ("recall", VNone)])])))
           "models/k2" k2_files k2_artifact
           [("A", VDict [("f1_score", VFloat (Fin (9 # 10))); ("recall", VNone)])]
           "A" [("f1_score", VFloat (Fin (9 # 10))); ("recall", VNone)] (9 # 10) []
           ["accuracy"; "precision"] "recall"
           ["f1_score"; "roc_auc"; "cv_mean"; "cv_std"] (TypeError VNone));
    try reflexivity.
  - exists [], [], (VFloat (Fin (9 # 10))). repeat split; constructor.
  - repeat constructor.
Defined.

(** An int too large for a float: the selected entry is reported up to
    its [f1_score] line, which raises [OverflowError]. *)
Example oversized_int_run :
  process_dir
    (k2_host (Ok (VDict [("A", VDict [("f1_score", VInt (2 ^ 1024))])])))
    "models/k2" []
  = ([ Print (Header "K2"); Print (BestModel (Some "A"));
       Print (Metric "Accuracy" (Fin 0)); Print (Metric "Precision" (Fin 0));
       Print (Metric "Recall" (Fin 0));
       Print (ErrorLoading k2_artifact (OverflowError (VInt (2 ^ 1024)))) ]
       ++ listing "models/k2" k2_files,
     Ok []).
Proof. vm_compute. reflexivity. Qed.

(** ** Nothing selected (lines 33-34, 51-52, 61-62) *)

(** X12: when the loaded mapping has no [f1_score] above 0 (the empty
    mapping, entries that are not dicts or lack the field, scores of 0 or
    less), the directory's output is the header, "Best Model: None", the
    error line for [KeyError('accuracy')] and the listing, and the summary
    is left as it was. *)
Theorem nothing_selected_reports_key_error
    fs model_dir files p items results :
  path_exists fs model_dir = true ->
  listdir fs model_dir = Ok files ->
  find_results_file model_dir files = Some p ->
  path_exists fs p = true ->
  joblib_load fs p = Ok (VDict items) ->
  Forall (f1_le 0) items ->
  process_dir fs model_dir results
  = ([Print (Header (upper (display_name model_dir)));
      Print (BestModel None);
      Print (ErrorLoading p (KeyError "accuracy"))] ++ listing model_dir files,
     Ok results).
Proof. intros. eapply no_best_model_caught; eauto. Qed.

Lemma nothing_selected_reports_key_error_witness :
  process_dir (k2_host (Ok (VDict []))) "models/k2" []
  = ([Print (Header (upper (display_name "models/k2")));
      Print (BestModel None);
      Print (ErrorLoading k2_artifact (KeyError "accuracy"))]
       ++ listing "models/k2" k2_files,
     Ok []).
Proof.
  apply (nothing_selected_reports_key_error
           (k2_host (Ok (VDict []))) "models/k2" k2_files k2_artifact [] []);
    try reflexivity.
  constructor.
Defined.

(** ** The summary across directories (lines 8, 59, 75) *)

(** X13: a directory's iteration changes the summary at most under its
    own display name: every other key keeps its entry, and no key is ever
    removed. *)
Theorem directory_touches_only_its_key fs model_dir results out results' :
  process_dir fs model_dir results = (out, Ok results') ->
  (forall k, k <> display_name model_dir ->
             dict_get k results' = dict_get k results) /\
  (forall k, dict_has k results = true -> dict_has k results' = true).
Proof.
  intros H. split.
  - intros k Hk. eapply process_dir_other_key; eauto.
  - intros k Hhas.
    destruct (process_dir_inv _ _ _ _ _ H) as [-> | (info & _ & ->)]; [exact Hhas |].
    unfold dict_has in *.
    destruct (String.eqb_spec k (display_name model_dir)) as [-> | Hne].
    + now rewrite dict_get_set_same.
    + now rewrite dict_get_set_other.
Qed.

Lemma directory_touches_only_its_key_witness :
  dict_get "kepler"
    (dict_set "k2" (make_info "B" [("f1_score", VFloat (Fin (95 # 100)));
                                   ("accuracy", VFloat (Fin (85 # 100)))])
              [("kepler", make_info "K" [("f1_score", VInt 1)])])
  = Some (make_info "K" [("f1_score", VInt 1)]).
Proof.
  apply (proj1 (directory_touches_only_its_key
                  (k2_host (Ok (VDict two_models))) "models/k2"
                  [("kepler", make_info "K" [("f1_score", VInt 1)])] _ _ eq_refl)).
  discriminate.
Defined.

(** X14: the keys of the returned summary are display names of the
    configured directories, each at most once, in the order of
    [model_dirs] (k2 before kepler before tess). *)
Theorem summary_keys_in_directory_order fs out summary :
  check_model_performance fs = (out, Ok summary) ->
  (exists f, keys summary = filter f display_names) /\ NoDup (keys summary).
Proof.
  intros H. apply check_returns_inv in H as (o & H & _).
  destruct (process_dirs_keys fs model_dirs model_dirs_distinct [] _ _
              (fun _ _ Hin => Hin) H) as [f Hf].
  change (keys summary = filter f display_names) in Hf.
  split; [now exists f |].
  rewrite Hf. apply NoDup_filter, model_dirs_distinct.
Qed.

Lemma summary_keys_in_directory_order_witness :
  (exists f,
      keys [("k2", make_info "B" [("f1_score", VFloat (Fin (95 # 100)));
                                  ("accuracy", VFloat (Fin (85 # 100)))])]
      = filter f display_names) /\
  NoDup (keys [("k2", make_info "B" [("f1_score", VFloat (Fin (95 # 100)));
                                     ("accuracy", VFloat (Fin (85 # 100)))])]).
Proof.
  exact (summary_keys_in_directory_order
           (k2_host (Ok (VDict two_models))) _ _ two_models_run).
Defined.

Lemma scan_ok_numeric items st st' : scan items st = Ok st' -> numeric_f1 items.
Proof.
  intros H. destruct (scan_upper_bound _ _ _ H) as [_ Hall].
  eapply Forall_impl; [| exact Hall].
  intros entry. unfold f1_le. destruct (f1_field entry); [| auto].
  intros (x & Hx & _). congruence.
Qed.

Lemma process_dir_written_inv fs model_dir results out results' info :
  process_dir fs model_dir results = (out, Ok results') ->
  dict_get (display_name model_dir) results = None ->
  dict_get (display_name model_dir) results' = Some info ->
  exists files p items name m q,
    path_exists fs model_dir = true /\ listdir fs model_dir = Ok files /\
    find_results_file model_dir files = Some p /\ path_exists fs p = true /\
    joblib_load fs p = Ok (VDict items) /\
    first_maximum items name m q /\ (0 < q)%Q /\
    numeric_fieldsb m = true /\ printable_fields m = true /\
    info = make_info name m.
Proof.
  intros H Hbefore Hafter.
  assert (results' <> results) as Hchanged by congruence.
  destruct (path_exists fs model_dir) eqn:Hdir.
  2:{ rewrite (process_dir_absent _ _ _ Hdir) in H. congruence. }
  destruct (listdir fs model_dir) as [files | e] eqn:Hlist.
  2:{ rewrite (process_dir_unlistable _ _ _ _ Hdir Hlist) in H. discriminate. }
  destruct (find_results_file model_dir files) as [p |] eqn:Hfind.
  2:{ rewrite (process_dir_no_artifact _ _ _ _ Hdir Hlist Hfind) in H. congruence. }
  destruct (path_exists fs p) eqn:Hp.
  2:{ rewrite (process_dir_artifact_gone _ _ _ _ Hdir Hlist _ Hfind Hp) in H.
      congruence. }
  destruct (load_and_report fs (display_name model_dir) p results)
    as [o [r | e]] eqn:Hrep.
  2:{ rewrite (process_dir_caught _ _ _ _ Hdir Hlist _ Hfind Hp _ _ Hrep) in H.
      congruence. }
  rewrite (process_dir_reported _ _ _ _ Hdir Hlist _ Hfind Hp _ _ Hrep) in H.
  injection H as _ <-.
  destruct (joblib_load fs p) as [v | e] eqn:Hload.
  2:{ rewrite (load_fails _ _ _ _ _ Hload) in Hrep. discriminate. }
  destruct v as [| | | | | | items];
    try (rewrite (load_not_a_dict _ _ _ _ _ Hload) in Hrep by discriminate;
         congruence).
  destruct (scan items scan_init) as [st | e] eqn:Hscan.
  2:{ rewrite (scan_fails _ _ _ _ _ Hload _ Hscan) in Hrep. discriminate. }
  exists files, p, items.
  destruct (first_maximum_exists items (scan_ok_numeric _ _ _ Hscan) 0%Q)
    as [Hall | (name & m & q & Hmax & Hq)].
  { rewrite (scan_le _ scan_init Hall) in Hscan. injection Hscan as <-.
    rewrite (no_best_model _ _ _ _ _ Hload _ (scan_le _ scan_init Hall) eq_refl)
      in Hrep. discriminate. }
  rewrite (scan_first_maximum _ _ _ _ scan_init Hmax Hq) in Hscan.
  injection Hscan as <-.
  unfold load_and_report in Hrep.
  rewrite Hload, bind_lift_ok, bind_print in Hrep.
  rewrite (scan_first_maximum _ _ _ _ scan_init Hmax Hq), bind_lift_ok in Hrep.
  cbn [best_model model_info] in Hrep.
  destruct (print_metrics (Some name) (make_info name m)) as [o' [[] | e]] eqn:Hprint;
    simpl in Hrep; [| discriminate].
  injection Hrep as _ <-.
  rewrite dict_get_set_same in Hafter. injection Hafter as <-.
  pose proof (print_metrics_ok_inv _ _ _ _ Hprint) as Hok.
  exists name, m, q. repeat split; auto using printable_fields_numeric.
Qed.

(** X15: an entry of the returned summary can only come from the artifact
    of its directory: the directory exists, its first matching file exists
    and loads to a mapping, and the entry is built from that mapping's
    first maximum, whose [f1_score] is above 0 and whose metric fields are
    all numbers, and numbers lines 52-57 can format. *)
Theorem summary_entry_comes_from_artifact fs model_dir out summary info :
  In model_dir model_dirs ->
  check_model_performance fs = (out, Ok summary) ->
  dict_get (display_name model_dir) summary = Some info ->
  exists files p items name m q,
    path_exists fs model_dir = true /\ listdir fs model_dir = Ok files /\
    find_results_file model_dir files = Some p /\ path_exists fs p = true /\
    joblib_load fs p = Ok (VDict items) /\
    first_maximum items name m q /\ (0 < q)%Q /\
    numeric_fieldsb m = true /\ printable_fields m = true /\
    info = make_info name m.
Proof.
  intros Hconf H Hget. apply check_returns_inv in H as (o & H & _).
  destruct (process_dirs_own_key _ _ _ model_dirs_distinct Hconf _ _ _ H)
    as (r0 & o1 & r1 & Hstep & Hbefore & Hafter).
  eapply process_dir_written_inv; eauto.
  now rewrite <- Hafter.
Qed.

Lemma summary_entry_comes_from_artifact_witness :
  exists files p items name m q,
    path_exists (k2_host (Ok (VDict two_models))) "models/k2" = true /\
    listdir (k2_host (Ok (VDict two_models))) "models/k2" = Ok files /\
    find_results_file "models/k2" files = Some p /\
    path_exists (k2_host (Ok (VDict two_models))) p = true /\
    joblib_load (k2_host (Ok (VDict two_models))) p = Ok (VDict items) /\
    first_maximum items name m q /\ (0 < q)%Q /\
    numeric_fieldsb m = true /\ printable_fields m = true /\
    make_info "B" [("f1_score", VFloat (Fin (95 # 100))); ("accuracy", VFloat (Fin (85 # 100)))]
    = make_info name m.
Proof.
  apply (summary_entry_comes_from_artifact
           (k2_host (Ok (VDict two_models))) "models/k2" _ _ _
           (or_introl eq_refl) two_models_run).
  reflexivity.
Defined.

(** ** More on the scan (lines 35-39) *)

(** X16: the scan completes exactly when every [f1_score] in the mapping
    is a number; otherwise the comparison of line 37 raises. *)
Theorem scan_completes_iff_numeric items st :
  (exists st', scan items st = Ok st') <-> numeric_f1 items.
Proof.
  split.
  - intros [st' H]. eapply scan_ok_numeric; eauto.
  - intros Hnum. destruct (scan_numeric_prefix items [] Hnum st) as [st' H].
    rewrite app_nil_r in H. exists st'. exact H.
Qed.

Lemma scan_completes_iff_numeric_witness : numeric_f1 two_models.
Proof.
  apply (proj1 (scan_completes_iff_numeric two_models scan_init)).
  eexists. reflexivity.
Defined.

(** X17: the best score does not depend on the order of the entries: two
    scans of the same entries in different orders end on equal best
    scores.  (Which of several tied entries is named does depend on it.) *)
Theorem best_score_is_order_independent items items' st st' :
  Permutation items items' ->
  scan items scan_init = Ok st ->
  scan items' scan_init = Ok st' ->
  (best_f1 st == best_f1 st')%Q.
Proof.
  assert (forall l l' s s',
             Permutation l l' ->
             scan l scan_init = Ok s -> scan l' scan_init = Ok s' ->
             (best_f1 s <= best_f1 s')%Q) as Hle.
  { intros l l' s s' Hperm Hs Hs'.
    destruct (scan_upper_bound _ _ _ Hs') as [H0 Hall'].
    destruct (scan_result_origin _ _ _ Hs) as [-> | (n & m & v & _ & _ & Hin & Hf & Hv & _)];
      [exact H0 |].
    rewrite Forall_forall in Hall'.
    specialize (Hall' _ (Permutation_in _ Hperm Hin)).
    unfold f1_le, f1_field in Hall'. simpl in Hall'. rewrite Hf in Hall'.
    destruct Hall' as (x & Hx & Hxle). rewrite Hv in Hx. now injection Hx as <-. }
  intros Hperm Hs Hs'. apply Qle_antisym.
  - exact (Hle _ _ _ _ Hperm Hs Hs').
  - exact (Hle _ _ _ _ (Permutation_sym Hperm) Hs' Hs).
Qed.

Lemma best_score_is_order_independent_witness :
  (95 # 100 == 95 # 100)%Q.
Proof.
  apply (best_score_is_order_independent
           two_models (rev two_models)
           {| best_model := Some "B"; best_f1 := 95 # 100;
              model_info := make_info "B" [("f1_score", VFloat (Fin (95 # 100)));
                                           ("accuracy", VFloat (Fin (85 # 100)))] |}
           {| best_model := Some "B"; best_f1 := 95 # 100;
              model_info := make_info "B" [("f1_score", VFloat (Fin (95 # 100)));
                                           ("accuracy", VFloat (Fin (85 # 100)))] |}).
  - apply Permutation_rev.
  - reflexivity.
  - reflexivity.
Defined.

(** ** The display name (line 15) *)

Lemma string_append_assoc (a b c : string) :
  ((a ++ b) ++ c)%string = (a ++ b ++ c)%string.
Proof. induction a as [| x a IH]; simpl; [reflexivity | now rewrite IH]. Qed.

Lemma str_split_spec sep s :
  str_split sep s <> [] /\
  Forall (fun piece => ~ In sep (list_ascii_of_string piece)) (str_split sep s) /\
  String.concat (String sep EmptyString) (str_split sep s) = s.
Proof.
  induction s as [| c s (Hne & Hall & Hcat)]; simpl.
  - split; [discriminate | split; [| reflexivity]].
    constructor; [simpl; tauto | constructor].
  - destruct (Ascii.eqb_spec c sep) as [-> | Hc].
    + split; [discriminate |]. split.
      * constructor; [simpl; tauto | exact Hall].
      * destruct (str_split sep s) as [| hd tl]; [contradiction |].
        simpl in *. now rewrite Hcat.
    + destruct (str_split sep s) as [| hd tl]; [contradiction |].
      split; [discriminate |]. split.
      * inversion Hall; subst. constructor; [| assumption].
        simpl. intros [Heq | Hin]; [congruence | contradiction].
      * destruct tl as [| y tl]; simpl in *; now rewrite Hcat.
Qed.

Lemma concat_last sep l :
  l <> [] ->
  exists prefix,
    String.concat sep l = (prefix ++ last l EmptyString)%string /\
    (prefix = EmptyString \/ exists p, prefix = (p ++ sep)%string).
Proof.
  induction l as [| x l IH]; intros Hne; [contradiction |].
  destruct l as [| y l].
  - exists EmptyString. split; [reflexivity | now left].
  - destruct IH as (prefix & Hcat & Hprefix); [discriminate |].
    change (String.concat sep (x :: y :: l))
      with (x ++ sep ++ String.concat sep (y :: l))%string.
    change (last (x :: y :: l) EmptyString) with (last (y :: l) EmptyString).
    rewrite Hcat. destruct Hprefix as [-> | [p ->]].
    + exists (x ++ sep)%string. split; [| right; now exists x].
      now rewrite string_append_assoc.
    + exists ((x ++ sep ++ p) ++ sep)%string. split; [| right; now eexists].
      now rewrite !string_append_assoc.
Qed.

(** X18: the display name of a directory is what follows the last "/" of
    its path: it contains no "/", and the path is the display name itself
    or a prefix ending in "/" followed by it. *)
Theorem display_name_is_last_segment model_dir :
  ~ In "/"%char (list_ascii_of_string (display_name model_dir)) /\
  exists prefix,
    model_dir = (prefix ++ display_name model_dir)%string /\
    (prefix = EmptyString \/ exists p, prefix = (p ++ "/")%string).
Proof.
  unfold display_name.
  destruct (str_split_spec "/"%char model_dir) as (Hne & Hall & Hcat).
  split.
  - rewrite Forall_forall in Hall. apply Hall.
    destruct (exists_last Hne) as (init & piece & ->).
    rewrite last_last. apply in_or_app. right. now left.
  - destruct (concat_last "/" _ Hne) as (prefix & Hlast & Hprefix).
    exists prefix. split; [| exact Hprefix].
    rewrite <- Hlast. symmetry. exact Hcat.
Qed.
